(** * mcp-perplexity-search: the [chat_completion] tool handler

    A shallow embedding of the request handler that the server registers for
    [CallToolRequestSchema] (the current server with [custom_template], the
    template catalog of [prompt-templates.ts], and the earlier [index.ts]
    variant whose catalog is inlined), followed by the properties of the
    template resolution, the message composition, the bounded remote call and
    the result envelope. The tool list's schema of [prompt_template], the
    whole handler of [index.ts] and the first server (no template, no
    timeout) are embedded as well, with what they keep and what they change.

    Conventions of the embedding.
    - A JavaScript value that may be [undefined] (or [null], where the code
      only tests nullishness) is an [option]: [None] is the absent value.
    - A number is never computed with by the handler; it is represented by the
      text [Number.prototype.toString] prints for it, so that [0] and [-0]
      are both ["0"].
    - Effects (timers, the call to [fetch], exceptions) are threaded through a
      small state-and-exception monad [M]. *)

From stdpp Require Import base option list strings gmap.

Open Scope string_scope.

(** ** Data model *)

(** ['text' | 'markdown' | 'json'] *)
Module Format.
Inductive t := text | markdown | json.

#[global] Instance eq_dec : EqDecision t.
Proof. solve_decision. Defined.
End Format.

Definition number := string.

(** [{ role, content }]: [content] is [None] when the property reads as
    [undefined]. *)
Module Message.
Record t := { role : string; content : option string }.
End Message.

(** An entry of [PROMPT_TEMPLATES] in [prompt-templates.ts]. *)
Module Entry.
Record t := {
  system : string;
  format : Format.t;
  include_sources : bool;
  description : string }.
End Entry.

(** [custom_template] as the tool's input schema declares it: an object
    whose [system] is required, [format] and [include_sources] are optional.
    The handler keeps any value that is not nullish ([custom_template ?? ...]);
    a value that is not such an object (the empty string, an object without
    [system]) is outside this type. *)
Record CustomPromptTemplate := {
  custom_system : string;
  custom_format : option Format.t;
  custom_include_sources : option bool }.

(** What the handler can read from the object bound to [template]: the three
    properties it accesses, each [None] when the read gives [undefined]. *)
Record TemplateObject := {
  template_system : option string;
  template_format : option Format.t;
  template_include_sources : option bool }.

Definition of_entry (e : Entry.t) : TemplateObject :=
  {| template_system := Some (Entry.system e);
     template_format := Some (Entry.format e);
     template_include_sources := Some (Entry.include_sources e) |}.

Definition of_custom (c : CustomPromptTemplate) : TemplateObject :=
  {| template_system := Some (custom_system c);
     template_format := custom_format c;
     template_include_sources := custom_include_sources c |}.

(** ** The catalog of [prompt-templates.ts] *)

Definition technical_docs : Entry.t :=
  {| Entry.system := "You are a technical documentation assistant. Provide clear, accurate, and well-structured information with code examples where relevant.";
     Entry.format := Format.markdown;
     Entry.include_sources := true;
     Entry.description := "Technical documentation with code examples and source references" |}.

Definition security_practices : Entry.t :=
  {| Entry.system := "You are a security expert. Provide detailed security best practices, implementation guidelines, and potential vulnerability mitigations.";
     Entry.format := Format.markdown;
     Entry.include_sources := true;
     Entry.description := "Security best practices and implementation guidelines with references" |}.

Definition code_review : Entry.t :=
  {| Entry.system := "You are a code review assistant. Analyze code for best practices, potential issues, and suggest improvements.";
     Entry.format := Format.markdown;
     Entry.include_sources := false;
     Entry.description := "Code analysis focusing on best practices and improvements" |}.

Definition api_docs : Entry.t :=
  {| Entry.system := "You are an API documentation assistant. Provide clear explanations of API endpoints, parameters, and usage examples.";
     Entry.format := Format.json;
     Entry.include_sources := true;
     Entry.description := "API documentation in structured JSON format with examples" |}.

Definition PROMPT_TEMPLATES : gmap string Entry.t :=
  <["technical_docs" := technical_docs]>
  (<["security_practices" := security_practices]>
  (<["code_review" := code_review]>
  (<["api_docs" := api_docs]> ∅))).

(** The catalog is an ordinary object literal, so a computed member access
    [PROMPT_TEMPLATES[k]] also finds what the object inherits from
    [Object.prototype]. Those values are functions (or, for [__proto__], the
    prototype object): truthy, with no [system], [format] or
    [include_sources] property. *)
Definition Object_prototype : list string :=
  [ "constructor"; "__defineGetter__"; "__defineSetter__"; "hasOwnProperty";
    "__lookupGetter__"; "__lookupSetter__"; "isPrototypeOf";
    "propertyIsEnumerable"; "toString"; "valueOf"; "__proto__";
    "toLocaleString" ].

Definition inherited : TemplateObject :=
  {| template_system := None;
     template_format := None;
     template_include_sources := None |}.

(** [PROMPT_TEMPLATES[k]]; [None] is [undefined]. *)
Definition PROMPT_TEMPLATES_get (k : string) : option TemplateObject :=
  match PROMPT_TEMPLATES !! k with
  | Some e => Some (of_entry e)
  | None => if bool_decide (k ∈ Object_prototype) then Some inherited else None
  end.

(** ** The arguments of a call *)

(** [request.params.arguments] after the destructuring of the handler: the
    per-call [format] and [include_sources] are bound to [user_format] and
    [user_include_sources]. *)
Record Arguments := {
  messages : list Message.t;
  prompt_template : option string;
  custom_template : option CustomPromptTemplate;
  model : option string;
  temperature : option number;
  max_tokens : option number;
  user_format : option Format.t;
  user_include_sources : option bool }.

(** ** Template resolution *)

(** [a ?? b] *)
Definition nullish {A} (a : option A) (b : A) : A := default b a.

(** [custom_template ?? (prompt_template ? PROMPT_TEMPLATES[prompt_template] : null)].
    The empty string is falsy. [None] stands for both [null] and
    [undefined]: the handler only tests the value for truthiness and reads
    it through [?.]. *)
Definition template (a : Arguments) : option TemplateObject :=
  match custom_template a with
  | Some c => Some (of_custom c)
  | None =>
      match prompt_template a with
      | Some k => if bool_decide (k = "") then None else PROMPT_TEMPLATES_get k
      | None => None
      end
  end.

(** [user_format ?? template?.format ?? 'text'] *)
Definition format (a : Arguments) : Format.t :=
  match user_format a with
  | Some f => f
  | None => nullish (template a ≫= template_format) Format.text
  end.

(** [user_include_sources ?? template?.include_sources ?? false] *)
Definition include_sources (a : Arguments) : bool :=
  match user_include_sources a with
  | Some b => b
  | None => nullish (template a ≫= template_include_sources) false
  end.

(** [template ? [{ role: 'system', content: template.system }, ...messages] : messages] *)
Definition final_messages (a : Arguments) : list Message.t :=
  match template a with
  | Some t => {| Message.role := "system"; Message.content := template_system t |} :: messages a
  | None => messages a
  end.

(** ** JSON values, as [response.json()] produces them *)

#[warnings="-register-all"] Inductive JSON :=
| JNull
| JBool (b : bool)
| JNumber (n : number)
| JString (s : string)
| JArray (elements : list JSON)
| JObject (members : list (string * JSON)).

(** A JavaScript value read out of a JSON document; [None] is [undefined]. *)
Abbreviation value := (option JSON).

(** The own property [k] of a parsed object; [members] lists every name once. *)
Fixpoint lookup_member (k : string) (members : list (string * JSON)) : value :=
  match members with
  | [] => None
  | (k', v) :: rest => if bool_decide (k = k') then Some v else lookup_member k rest
  end.

(** [ToBoolean] *)
Definition truthy (v : value) : bool :=
  match v with
  | None | Some JNull => false
  | Some (JBool b) => b
  | Some (JNumber n) => negb (bool_decide (n = "0"))
  | Some (JString s) => negb (bool_decide (s = ""))
  | Some (JArray _) | Some (JObject _) => true
  end.

(** [v.name] on a value that is neither [null] nor [undefined], for the names
    the handler reads ([choices], [message], [content], [error]): none of them
    is defined on a built-in prototype, so only an object's own member
    answers. *)
Definition read (v : JSON) (name : string) : value :=
  match v with
  | JObject members => lookup_member name members
  | _ => None
  end.

(** [v[0]] on a value that is neither [null] nor [undefined]. *)
Definition read0 (v : JSON) : value :=
  match v with
  | JArray elements => head elements
  | JObject members => lookup_member "0" members
  | JString (String c _) => Some (JString (String c ""))
  | _ => None
  end.

(** [ToString], as a template literal applies it. [None] is the [TypeError]
    thrown for an object whose own [toString] member hides
    [Object.prototype.toString]: no member of a parsed document is callable.
    An array prints its elements separated by commas, [null] as nothing. *)
Fixpoint ToString (v : JSON) : option string :=
  match v with
  | JNull => Some "null"
  | JBool b => Some (if b then "true" else "false")
  | JNumber n => Some n
  | JString s => Some s
  | JArray elements =>
      (fix join (l : list JSON) : option string :=
         let element x := match x with JNull => Some "" | _ => ToString x end in
         match l with
         | [] => Some ""
         | [x] => element x
         | x :: rest => s ← element x; r ← join rest; Some (s ++ "," ++ r)
         end) elements
  | JObject members =>
      match lookup_member "toString" members with
      | Some _ => None
      | None => Some "[object Object]"
      end
  end.

(** ** Thrown values *)

(** [ErrorCode] of the MCP SDK, the two members the server uses. *)
Inductive ErrorCode := MethodNotFound | InternalError.

Definition ErrorCode_number (c : ErrorCode) : string :=
  match c with
  | MethodNotFound => "-32601"
  | InternalError => "-32603"
  end.

Inductive Thrown :=
| Error (name message : string)          (* an instance of [Error]: TypeError, SyntaxError, AbortError, ... *)
| McpError (code : ErrorCode) (message : string)   (* [new McpError(code, message)] *)
| NotError (printed : string).            (* any other value; [printed] is [String(value)] *)

Definition TypeError := Error "TypeError".

(** The rejection of an aborted [fetch] or body read. *)
Definition AbortError := Error "AbortError" "This operation was aborted".

(** [error.message]. The SDK's [McpError] constructor calls
    [super(`MCP error ${code}: ${message}`)]. *)
Definition Error_message (e : Thrown) : option string :=
  match e with
  | Error _ m => Some m
  | McpError c m => Some ("MCP error " ++ ErrorCode_number c ++ ": " ++ m)
  | NotError _ => None
  end.

(** [error instanceof Error ? error.message : String(error)] *)
Definition error_text (e : Thrown) : string :=
  match e with
  | NotError printed => printed
  | _ => default "" (Error_message e)
  end.

(** [v.name]: throws on [null] and [undefined]. *)
Definition member (v : value) (name : string) : Thrown + value :=
  match v with
  | None => inl (TypeError ("Cannot read properties of undefined (reading '" ++ name ++ "')"))
  | Some JNull => inl (TypeError ("Cannot read properties of null (reading '" ++ name ++ "')"))
  | Some j => inr (read j name)
  end.

(** [v[0]]: throws on [null] and [undefined]. *)
Definition member0 (v : value) : Thrown + value :=
  match v with
  | None => inl (TypeError "Cannot read properties of undefined (reading '0')")
  | Some JNull => inl (TypeError "Cannot read properties of null (reading '0')")
  | Some j => inr (read0 j)
  end.

(** [v?.name] and [v?.[0]] *)
Definition optional_member (v : value) (name : string) : value :=
  match v with
  | None | Some JNull => None
  | Some j => read j name
  end.

Definition optional_member0 (v : value) : value :=
  match v with
  | None | Some JNull => None
  | Some j => read0 j
  end.

(** ** The world of a call: timers, abort controllers, the remote service *)

(** The body of the POST, before [JSON.stringify]. *)
Record CompletionRequest := {
  request_model : string;
  request_messages : list Message.t;
  request_temperature : number;
  request_max_tokens : number;
  request_format : Format.t;
  request_include_sources : bool }.

(** The second argument of [fetch]. [signal] names the [AbortController] the
    signal belongs to. *)
Record RequestInit := {
  method : string;
  headers : list (string * string);
  body : CompletionRequest;
  signal : nat }.

(** What [response.json()] does: it resolves with the parsed body, rejects
    (no body, not JSON, connection lost), or the timer fires while the body
    is being read and the read rejects with the abort. *)
Inductive BodyResult :=
| Parsed (data : JSON)
| BodyRejects (reason : Thrown)
| BodyTimesOut.

Record Response := {
  ok : bool;
  statusText : string;
  received : BodyResult }.

(** What [fetch] does: it rejects (network failure), the timer fires first
    and the call is aborted, or it resolves with a response. *)
Inductive FetchResult :=
| Rejects (reason : Thrown)
| TimesOut
| Responds (response : Response).

Inductive Event :=
| SetTimeout (timeoutId : nat) (controller : nat) (delay : N)
| Fetched (url : string) (init : RequestInit)
| Aborted (controller : nat)
| ClearTimeout (timeoutId : nat).

(** [timers] maps each pending timer to the controller its callback aborts;
    [controllers] counts the controllers created so far; [log] is the history
    of the calls, oldest first. *)
Record World := {
  timers : gmap nat nat;
  controllers : nat;
  log : list Event }.

(** A computation that may throw and that changes the world. *)
Definition M (A : Type) : Type := World → (Thrown + A) * World.

#[global] Instance M_ret : MRet M := λ A x w, (inr x, w).

#[global] Instance M_bind : MBind M := λ A B f m w,
  match m w with
  | (inl e, w') => (inl e, w')
  | (inr x, w') => f x w'
  end.

Definition throw {A} (e : Thrown) : M A := λ w, (inl e, w).

(** Lifts a pure step that may throw. *)
Definition lift {A} (r : Thrown + A) : M A := λ w, (r, w).

(** [try { body } catch (error) { handler error }], also
    [promise.catch(handler)]. *)
Definition try_catch {A} (body : M A) (handler : Thrown → M A) : M A := λ w,
  match body w with
  | (inl e, w') => handler e w'
  | (inr x, w') => (inr x, w')
  end.

(** [try { body } finally { cleanup }]: the cleanup runs whatever [body]
    did, and the outcome of [body] stands unless the cleanup throws. *)
Definition try_finally {A} (body : M A) (cleanup : M unit) : M A := λ w,
  match body w with
  | (r, w') =>
      match cleanup w' with
      | (inl e, w'') => (inl e, w'')
      | (inr _, w'') => (r, w'')
      end
  end.

Definition record (e : Event) (w : World) : World :=
  {| timers := timers w; controllers := controllers w; log := log w ++ [e] |}.

(** [new AbortController()] *)
Definition new_AbortController : M nat := λ w,
  (inr (controllers w),
   {| timers := timers w; controllers := S (controllers w); log := log w |}).

(** [setTimeout(() => controller.abort(), delay)]: the timer gets an
    identifier that no pending timer has. *)
Definition setTimeout (controller : nat) (delay : N) : M nat := λ w,
  let timeoutId := fresh (dom (timers w)) in
  (inr timeoutId,
   record (SetTimeout timeoutId controller delay)
     {| timers := <[timeoutId := controller]> (timers w);
        controllers := controllers w; log := log w |}).

(** [clearTimeout(timeoutId)] *)
Definition clearTimeout (timeoutId : nat) : M unit := λ w,
  (inr (),
   record (ClearTimeout timeoutId)
     {| timers := delete timeoutId (timers w);
        controllers := controllers w; log := log w |}).

(** The timers set to abort [controller] fire: they are no longer pending
    and the controller's signal is aborted. *)
Definition expire (controller : nat) (w : World) : World :=
  record (Aborted controller)
    {| timers := filter (λ kv, kv.2 ≠ controller) (timers w);
       controllers := controllers w; log := log w |}.

(** ** Requests and results *)

(** [request.params], with [arguments] as the handler's cast types it: an
    object whose [messages] is an array. The destructuring of the arguments
    and the spread of [messages] come before the [try]: a request without
    [arguments], or one that selects a template and whose [messages] cannot
    be spread, throws a [TypeError] there. Such requests are outside this
    type, and nothing below speaks of them. *)
Record CallToolRequest := {
  name : string;
  arguments : Arguments }.

(** The result envelope. [text] is a value: on success it is whatever the
    remote document holds at [choices[0].message.content]. *)
Record Content := {
  type : string;
  text : value }.

Record CallToolResult := {
  content : list Content;
  isError : option bool }.

(** ** The earlier server, [index.ts]

    It has no [custom_template]; its catalog is inlined and its entries have
    no [description]. From the [try] on, its handler is the text of the
    current one. *)
Module Index.

Record Entry := {
  system : string;
  format : Format.t;
  include_sources : bool }.

Definition PROMPT_TEMPLATES : gmap string Entry :=
  <["technical_docs" :=
      {| system := "You are a technical documentation assistant. Provide clear, accurate, and well-structured information with code examples where relevant.";
         format := Format.markdown;
         include_sources := true |}]>
  (<["security_practices" :=
      {| system := "You are a security expert. Provide detailed security best practices, implementation guidelines, and potential vulnerability mitigations.";
         format := Format.markdown;
         include_sources := true |}]>
  (<["code_review" :=
      {| system := "You are a code review assistant. Analyze code for best practices, potential issues, and suggest improvements.";
         format := Format.markdown;
         include_sources := false |}]>
  (<["api_docs" :=
      {| system := "You are an API documentation assistant. Provide clear explanations of API endpoints, parameters, and usage examples.";
         format := Format.json;
         include_sources := true |}]> ∅))).

Definition of_entry (e : Entry) : TemplateObject :=
  {| template_system := Some (system e);
     template_format := Some (format e);
     template_include_sources := Some (include_sources e) |}.

Definition PROMPT_TEMPLATES_get (k : string) : option TemplateObject :=
  match PROMPT_TEMPLATES !! k with
  | Some e => Some (of_entry e)
  | None => if bool_decide (k ∈ Object_prototype) then Some inherited else None
  end.

(** [prompt_template ? PROMPT_TEMPLATES[prompt_template] : null] *)
Definition template (prompt_template : option string) : option TemplateObject :=
  match prompt_template with
  | Some k => if bool_decide (k = "") then None else PROMPT_TEMPLATES_get k
  | None => None
  end.

(** [user_format ?? template?.format ?? 'text'] *)
Definition format_of (prompt_template : option string)
    (user_format : option Format.t) : Format.t :=
  match user_format with
  | Some f => f
  | None => nullish (template prompt_template ≫= template_format) Format.text
  end.

(** [user_include_sources ?? template?.include_sources ?? false] *)
Definition include_sources_of (prompt_template : option string)
    (user_include_sources : option bool) : bool :=
  match user_include_sources with
  | Some b => b
  | None => nullish (template prompt_template ≫= template_include_sources) false
  end.

(** [template ? [{ role: 'system', content: template.system }, ...messages] : messages] *)
Definition final_messages (prompt_template : option string)
    (messages : list Message.t) : list Message.t :=
  match template prompt_template with
  | Some t => {| Message.role := "system"; Message.content := template_system t |} :: messages
  | None => messages
  end.

End Index.

(** ** Vocabulary of the statements *)

(** The system prompt, format and source flag a call ends up with:
    [template?.system], [format], [include_sources]. *)
Definition resolved (a : Arguments) : option string * Format.t * bool :=
  (template a ≫= template_system, format a, include_sources a).

Definition resolved_index (prompt_template : option string)
    (user_format : option Format.t) (user_include_sources : option bool)
    : option string * Format.t * bool :=
  (Index.template prompt_template ≫= template_system,
   Index.format_of prompt_template user_format,
   Index.include_sources_of prompt_template user_include_sources).

(** The same arguments with another [prompt_template]. *)
Definition with_prompt_template (k : option string) (a : Arguments) : Arguments :=
  {| messages := messages a;
     prompt_template := k;
     custom_template := custom_template a;
     model := model a;
     temperature := temperature a;
     max_tokens := max_tokens a;
     user_format := user_format a;
     user_include_sources := user_include_sources a |}.

Definition url : string := "https://api.perplexity.ai/chat/completions".

(** The value at [choices[0].message] of a parsed body, [None] where a step
    of the path is missing. *)
Definition message_of (data : JSON) : value :=
  choices ← read data "choices";
  first ← read0 choices;
  read first "message".

(** The value at [choices[0].message.content]. *)
Definition content_of (data : JSON) : value :=
  message ← message_of data;
  read message "content".

(** A parsed body has the expected shape when [choices[0].message] is there
    and truthy. *)
Definition well_shaped (data : JSON) : bool := truthy (message_of data).

(** The outcomes of the remote call that are failures: a rejected [fetch],
    the timeout, a status that is not a success, and, under a success
    status, a body that cannot be read or has not the expected shape. *)
Definition failure (outcome : FetchResult) : bool :=
  match outcome with
  | Rejects _ | TimesOut => true
  | Responds response =>
      if ok response then
        match received response with
        | Parsed data => negb (well_shaped data)
        | BodyRejects _ | BodyTimesOut => true
        end
      else true
  end.


(** The world once the controller is created and the timer is set, and the
    world once [clearTimeout] has run. *)
Definition armed (w : World) : World :=
  record (SetTimeout (fresh (dom (timers w))) (controllers w) 30000)
    {| timers := <[fresh (dom (timers w)) := controllers w]> (timers w);
       controllers := S (controllers w); log := log w |}.

Definition disarmed (timeoutId : nat) (w : World) : World :=
  record (ClearTimeout timeoutId)
    {| timers := delete timeoutId (timers w);
       controllers := controllers w; log := log w |}.

(** The envelope of a success. *)
Definition success_result (f : Format.t) (answer : value) : CallToolResult :=
  {| content := [ {| type := if decide (f = Format.json) then "json" else "text";
                     text := answer |} ];
     isError := None |}.

(** ** Concrete calls *)

Definition hi : Message.t := {| Message.role := "user"; Message.content := Some "hi" |}.

(** A call with the messages [[{user, "hi"}]] and nothing else. *)
Definition plain : Arguments :=
  {| messages := [hi]; prompt_template := None; custom_template := None;
     model := None; temperature := None; max_tokens := None;
     user_format := None; user_include_sources := None |}.

Definition call (a : Arguments) : CallToolRequest :=
  {| name := "chat_completion"; arguments := a |}.

Definition idle : World := {| timers := ∅; controllers := 0; log := [] |}.

(** A remote service that answers every request the same way. *)
Definition always (outcome : FetchResult) : string → RequestInit → FetchResult :=
  λ _ _, outcome.

Definition answers (data : JSON) : FetchResult :=
  Responds {| ok := true; statusText := "OK"; received := Parsed data |}.

(** [{"choices":[{"message":{"role":"assistant","content":"yo"}}]}] *)
Definition greeting : JSON :=
  JObject [ ("choices",
             JArray [ JObject [ ("message",
                                 JObject [ ("role", JString "assistant");
                                           ("content", JString "yo") ]) ] ]) ].

Definition P_template : CustomPromptTemplate :=
  {| custom_system := "P"; custom_format := None; custom_include_sources := None |}.

Definition with_P : Arguments :=
  {| messages := [hi]; prompt_template := Some "api_docs";
     custom_template := Some P_template;
     model := None; temperature := None; max_tokens := None;
     user_format := None; user_include_sources := None |}.

Definition as_json : Arguments :=
  {| messages := [hi]; prompt_template := None; custom_template := None;
     model := None; temperature := None; max_tokens := None;
     user_format := Some Format.json; user_include_sources := None |}.

(** ** Vocabulary of the further properties *)

(** The outcomes in which the 30 second timer fires before the call is over:
    while [fetch] is pending, or while the body is read. *)
Definition timed_out (outcome : FetchResult) : bool :=
  match outcome with
  | Rejects _ => false
  | TimesOut => true
  | Responds response =>
      match received response with
      | BodyTimesOut => true
      | Parsed _ | BodyRejects _ => false
      end
  end.

(** Every pending timer aborts a controller that has been created. *)
Definition timers_known (w : World) : Prop :=
  map_Forall (λ _ controller, controller < controllers w) (timers w).

(** The world after a sequence of requests handled one after the other. *)
Definition after {R} (handle : R → World → (Thrown + CallToolResult) * World)
    (requests : list R) (w : World) : World :=
  fold_left (λ w request, (handle request w).2) requests w.

(** How many of the requests name the tool. *)
Definition tool_calls (requests : list CallToolRequest) : nat :=
  length (filter (λ request, name request = "chat_completion") requests).

(** The arguments a client sends when it fills in the defaults that the
    input schema declares: [format: 'text'], [include_sources: false],
    [model: 'sonar'], [temperature: 0.7], [max_tokens: 1024]. *)
Definition with_declared_defaults (a : Arguments) : Arguments :=
  {| messages := messages a;
     prompt_template := prompt_template a;
     custom_template := custom_template a;
     model := Some (default "sonar" (model a));
     temperature := Some (default "0.7" (temperature a));
     max_tokens := Some (default "1024" (max_tokens a));
     user_format := Some (default Format.text (user_format a));
     user_include_sources := Some (default false (user_include_sources a)) |}.

(** A catalog entry written out as a custom template. *)
Definition as_custom (e : Entry.t) : CustomPromptTemplate :=
  {| custom_system := Entry.system e;
     custom_format := Some (Entry.format e);
     custom_include_sources := Some (Entry.include_sources e) |}.

(** ** The tool list *)

(** ['\n'] *)
Definition newline : string := String (Ascii.ascii_of_nat 10) "".

(** [Object.entries(PROMPT_TEMPLATES)]: the members in the order of the
    object literal. *)
Definition PROMPT_TEMPLATES_entries : list (string * Entry.t) :=
  [ ("technical_docs", technical_docs);
    ("security_practices", security_practices);
    ("code_review", code_review);
    ("api_docs", api_docs) ].

(** [strings.join(sep)] *)
Fixpoint join (sep : string) (strings : list string) : string :=
  match strings with
  | [] => ""
  | [x] => x
  | x :: rest => x ++ sep ++ join sep rest
  end.

(** The [enum] of the [prompt_template] property in the schema that the
    handler of [ListToolsRequestSchema] returns: [Object.keys(PROMPT_TEMPLATES)]. *)
Definition prompt_template_enum : list string := PROMPT_TEMPLATES_entries.*1.

(** The line of one template in the description: [`- ${key}: ${value.description}`]. *)
Definition template_line (entry : string * Entry.t) : string :=
  "- " ++ entry.1 ++ ": " ++ Entry.description entry.2.

(** The [description] of the [prompt_template] property. *)
Definition prompt_template_description : string :=
  ("Predefined prompt template to use for common use cases. Available templates:"
   ++ newline)
  ++ join newline (map template_line PROMPT_TEMPLATES_entries).

(** ** The arguments and the request of [index.ts] *)

Module IndexCall.

Record Arguments := {
  messages : list Message.t;
  prompt_template : option string;
  model : option string;
  temperature : option number;
  max_tokens : option number;
  user_format : option Format.t;
  user_include_sources : option bool }.

Record CallToolRequest := {
  name : string;
  arguments : Arguments }.

End IndexCall.

(** The same call, put to the current server. *)
Definition current (a : IndexCall.Arguments) : Arguments :=
  {| messages := IndexCall.messages a;
     prompt_template := IndexCall.prompt_template a;
     custom_template := None;
     model := IndexCall.model a;
     temperature := IndexCall.temperature a;
     max_tokens := IndexCall.max_tokens a;
     user_format := IndexCall.user_format a;
     user_include_sources := IndexCall.user_include_sources a |}.

Definition current_request (request : IndexCall.CallToolRequest) : CallToolRequest :=
  {| name := IndexCall.name request;
     arguments := current (IndexCall.arguments request) |}.

(** ** The first server: no template, no timeout

    This handler sets no timer and gives [fetch] no signal: nothing aborts
    the call. The outcomes below are those in which the promises settle. *)
Module Basic.

Record Arguments := {
  messages : list Message.t;
  model : option string;
  temperature : option number;
  max_tokens : option number }.

(** As for the current server, [arguments] is what the cast says: the
    destructuring that precedes the [try] throws for a request without
    arguments, which is outside this type. *)
Record CallToolRequest := {
  name : string;
  arguments : Arguments }.

(** The body of the POST, before [JSON.stringify]. *)
Record CompletionRequest := {
  request_model : string;
  request_messages : list Message.t;
  request_temperature : number;
  request_max_tokens : number }.

Record RequestInit := {
  method : string;
  headers : list (string * string);
  body : CompletionRequest }.

Inductive BodyResult :=
| Parsed (data : JSON)
| BodyRejects (reason : Thrown).

Record Response := {
  ok : bool;
  statusText : string;
  received : BodyResult }.

Inductive FetchResult :=
| Rejects (reason : Thrown)
| Responds (response : Response).

(** A computation that may throw. *)
Definition E (A : Type) : Type := Thrown + A.

#[global] Instance E_ret : MRet E := λ A x, inr x.

#[global] Instance E_bind : MBind E := λ A B f m,
  match m with
  | inl e => inl e
  | inr x => f x
  end.

Section Server.

Variable PERPLEXITY_API_KEY : string.
Variable remote : string → RequestInit → FetchResult.

(** [await fetch(url, init)] *)
Definition fetch (url : string) (init : RequestInit) : E Response :=
  match remote url init with
  | Rejects reason => inl reason
  | Responds response => inr response
  end.

(** [await response.json()] *)
Definition response_json (response : Response) : E JSON :=
  match received response with
  | Parsed data => inr data
  | BodyRejects reason => inl reason
  end.

Definition completion_request (a : Arguments) : CompletionRequest :=
  {| request_model := default "sonar-medium-chat" (model a);
     request_messages := messages a;
     request_temperature := default "0.7" (temperature a);
     request_max_tokens := default "1024" (max_tokens a) |}.

Definition request_init (a : Arguments) : RequestInit :=
  {| method := "POST";
     headers := [ ("Content-Type", "application/json");
                  ("Authorization", "Bearer " ++ PERPLEXITY_API_KEY) ];
     body := completion_request a |}.

(** [data.choices[0].message.content] *)
Definition choices_0_message_content (data : JSON) : E value :=
  choices ← (member (Some data) "choices" : E value);
  first ← (member0 choices : E value);
  message ← (member first "message" : E value);
  (member message "content" : E value).

(** The body of the [try]. *)
Definition attempt (a : Arguments) : E CallToolResult :=
  response ← fetch "https://api.perplexity.ai/chat/completions" (request_init a);
  if negb (ok response) then
    inl (Error "Error" ("Perplexity API error: " ++ statusText response))
  else
    data ← response_json response;
    answer ← choices_0_message_content data;
    mret {| content := [ {| type := "text"; text := answer |} ];
            isError := None |}.

(** The [catch (error)] clause is the text of the current one. *)
Definition chat_completion (a : Arguments) : CallToolResult :=
  match attempt a with
  | inr result => result
  | inl error =>
      {| content :=
           [ {| type := "text";
                text := Some (JString ("Error generating completion: " ++ error_text error)) |} ];
         isError := Some true |}
  end.

(** The handler registered for [CallToolRequestSchema]. *)
Definition handler (request : CallToolRequest) : E CallToolResult :=
  if bool_decide (name request ≠ "chat_completion") then
    inl (McpError MethodNotFound ("Unknown tool: " ++ name request))
  else inr (chat_completion (arguments request)).

End Server.

End Basic.

(** The value at [choices[0].message] is there and is not [null]: the path
    [data.choices[0].message.content] can be read. *)
Definition readable (data : JSON) : bool :=
  match message_of data with
  | None | Some JNull => false
  | Some _ => true
  end.

(** A request for another tool. *)
Definition other_tool : CallToolRequest :=
  {| name := "search"; arguments := plain |}.

(** A remote service that refuses every request with a status and an error
    body. *)
Definition refuses (status : string) (received : BodyResult) : FetchResult :=
  Responds {| ok := false; statusText := status; received := received |}.

(** [{"error": "Invalid model"}] and [{"error": {"message": "Invalid model"}}] *)
Definition error_string : JSON := JObject [ ("error", JString "Invalid model") ].

Definition error_object : JSON :=
  JObject [ ("error", JObject [ ("message", JString "Invalid model") ]) ].

(** [{"error": {"toString": 1}}] *)
Definition error_with_toString : JSON :=
  JObject [ ("error", JObject [ ("toString", JNumber "1") ]) ].

Definition basic_plain : Basic.Arguments :=
  {| Basic.messages := [hi]; Basic.model := None; Basic.temperature := None;
     Basic.max_tokens := None |}.

Definition basic_call (a : Basic.Arguments) : Basic.CallToolRequest :=
  {| Basic.name := "chat_completion"; Basic.arguments := a |}.

Definition basic_answers (data : JSON) : string → Basic.RequestInit → Basic.FetchResult :=
  λ _ _, Basic.Responds {| Basic.ok := true; Basic.statusText := "OK";
                           Basic.received := Basic.Parsed data |}.

(** [{"choices":[{"message":""}]}] *)
Definition empty_message : JSON :=
  JObject [ ("choices", JArray [ JObject [ ("message", JString "") ] ]) ].

(** The outcomes that the first server reports as errors. *)
Definition basic_failure (outcome : Basic.FetchResult) : bool :=
  match outcome with
  | Basic.Rejects _ => true
  | Basic.Responds response =>
      if Basic.ok response then
        match Basic.received response with
        | Basic.Parsed data => negb (readable data)
        | Basic.BodyRejects _ => true
        end
      else true
  end.

(** ** The handler *)

Section Server.

(** The credential read from the environment at start-up, and the remote
    service: what [fetch] does with a request. *)
Variable PERPLEXITY_API_KEY : string.
Variable remote : string → RequestInit → FetchResult.

(** [await fetch(url, init)] *)
Definition fetch (url : string) (init : RequestInit) : M Response := λ w,
  let w := record (Fetched url init) w in
  match remote url init with
  | Rejects reason => (inl reason, w)
  | TimesOut => (inl AbortError, expire (signal init) w)
  | Responds response => (inr response, w)
  end.

(** [await response.json()], for a response to a request made with the
    signal of [controller]. *)
Definition response_json (controller : nat) (response : Response) : M JSON := λ w,
  match received response with
  | Parsed data => (inr data, w)
  | BodyRejects reason => (inl reason, w)
  | BodyTimesOut => (inl AbortError, expire controller w)
  end.

(** The object given to [JSON.stringify]; [model], [temperature] and
    [max_tokens] take their defaults when absent. *)
Definition completion_request (a : Arguments) : CompletionRequest :=
  {| request_model := default "sonar" (model a);
     request_messages := final_messages a;
     request_temperature := default "0.7" (temperature a);
     request_max_tokens := default "1024" (max_tokens a);
     request_format := format a;
     request_include_sources := include_sources a |}.

Definition request_init (a : Arguments) (controller : nat) : RequestInit :=
  {| method := "POST";
     headers := [ ("Content-Type", "application/json");
                  ("Authorization", "Bearer " ++ PERPLEXITY_API_KEY) ];
     body := completion_request a;
     signal := controller |}.

(** [errorData.error ? ` - ${errorData.error}` : ''] *)
Definition error_detail (errorData : JSON) : M string :=
  error ← lift (member (Some errorData) "error");
  if truthy error then
    match error ≫= ToString with
    | Some printed => mret (" - " ++ printed)
    | None => throw (TypeError "Cannot convert object to primitive value")
    end
  else mret "".

(** [data.choices?.[0]?.message] *)
Definition choices_0_message (data : JSON) : M value :=
  choices ← lift (member (Some data) "choices");
  mret (optional_member (optional_member0 choices) "message").

(** [data.choices[0].message.content] *)
Definition choices_0_message_content (data : JSON) : M value :=
  choices ← lift (member (Some data) "choices");
  first ← lift (member0 choices);
  message ← lift (member first "message");
  lift (member message "content").

(** The body of the inner [try]. *)
Definition attempt (a : Arguments) (controller : nat) : M CallToolResult :=
  response ← fetch "https://api.perplexity.ai/chat/completions"
                   (request_init a controller);
  if negb (ok response) then
    errorData ← try_catch (response_json controller response)
                          (λ _, mret (JObject []));
    detail ← error_detail errorData;
    throw (McpError InternalError
             ("Perplexity API error: " ++ statusText response ++ detail))
  else
    data ← response_json controller response;
    message ← choices_0_message data;
    if negb (truthy message) then
      throw (McpError InternalError "Invalid response format from Perplexity API")
    else
      answer ← choices_0_message_content data;
      mret {| content :=
                [ {| type := if decide (format a = Format.json) then "json" else "text";
                     text := answer |} ];
              isError := None |}.

(** The body of the outer [try]: the controller, the 30 second timer, and
    the inner [try] with its [finally]. *)
Definition bounded (a : Arguments) : M CallToolResult :=
  controller ← new_AbortController;
  timeoutId ← setTimeout controller 30000;
  try_finally (attempt a controller) (clearTimeout timeoutId).

(** The [catch (error)] clause. *)
Definition error_result (error : Thrown) : CallToolResult :=
  {| content :=
       [ {| type := "text";
            text := Some (JString ("Error generating completion: " ++ error_text error)) |} ];
     isError := Some true |}.

Definition chat_completion (a : Arguments) : M CallToolResult :=
  try_catch (bounded a) (λ error, mret (error_result error)).

(** The handler registered for [CallToolRequestSchema]. *)
Definition handler (request : CallToolRequest) : M CallToolResult :=
  if bool_decide (name request ≠ "chat_completion") then
    throw (McpError MethodNotFound ("Unknown tool: " ++ name request))
  else chat_completion (arguments request).

(** *** The handler of [index.ts] *)

Definition index_completion_request (a : IndexCall.Arguments) : CompletionRequest :=
  {| request_model := default "sonar" (IndexCall.model a);
     request_messages :=
       Index.final_messages (IndexCall.prompt_template a) (IndexCall.messages a);
     request_temperature := default "0.7" (IndexCall.temperature a);
     request_max_tokens := default "1024" (IndexCall.max_tokens a);
     request_format :=
       Index.format_of (IndexCall.prompt_template a) (IndexCall.user_format a);
     request_include_sources :=
       Index.include_sources_of (IndexCall.prompt_template a)
         (IndexCall.user_include_sources a) |}.

Definition index_request_init (a : IndexCall.Arguments) (controller : nat) : RequestInit :=
  {| method := "POST";
     headers := [ ("Content-Type", "application/json");
                  ("Authorization", "Bearer " ++ PERPLEXITY_API_KEY) ];
     body := index_completion_request a;
     signal := controller |}.

Definition index_attempt (a : IndexCall.Arguments) (controller : nat) : M CallToolResult :=
  response ← fetch "https://api.perplexity.ai/chat/completions"
                   (index_request_init a controller);
  if negb (ok response) then
    errorData ← try_catch (response_json controller response)
                          (λ _, mret (JObject []));
    detail ← error_detail errorData;
    throw (McpError InternalError
             ("Perplexity API error: " ++ statusText response ++ detail))
  else
    data ← response_json controller response;
    message ← choices_0_message data;
    if negb (truthy message) then
      throw (McpError InternalError "Invalid response format from Perplexity API")
    else
      answer ← choices_0_message_content data;
      mret {| content :=
                [ {| type :=
                       if decide (Index.format_of (IndexCall.prompt_template a)
                                    (IndexCall.user_format a) = Format.json)
                       then "json" else "text";
                     text := answer |} ];
              isError := None |}.

Definition index_bounded (a : IndexCall.Arguments) : M CallToolResult :=
  controller ← new_AbortController;
  timeoutId ← setTimeout controller 30000;
  try_finally (index_attempt a controller) (clearTimeout timeoutId).

Definition index_handler (request : IndexCall.CallToolRequest) : M CallToolResult :=
  if bool_decide (IndexCall.name request ≠ "chat_completion") then
    throw (McpError MethodNotFound ("Unknown tool: " ++ IndexCall.name request))
  else
    try_catch (index_bounded (IndexCall.arguments request))
              (λ error, mret (error_result error)).

(** * Properties *)

(** ** The catalog *)

Lemma PROMPT_TEMPLATES_keys :
  dom PROMPT_TEMPLATES
  = ({[ "technical_docs"; "security_practices"; "code_review"; "api_docs" ]} : gset string).
Proof.
  unfold PROMPT_TEMPLATES. rewrite !dom_insert_L, dom_empty_L. set_solver.
Qed.

Lemma Index_PROMPT_TEMPLATES_keys :
  dom Index.PROMPT_TEMPLATES
  = ({[ "technical_docs"; "security_practices"; "code_review"; "api_docs" ]} : gset string).
Proof.
  unfold Index.PROMPT_TEMPLATES. rewrite !dom_insert_L, dom_empty_L. set_solver.
Qed.

(** No catalog key is the empty string, the one string that is falsy. *)
Lemma catalog_key_truthy k e : PROMPT_TEMPLATES !! k = Some e → k ≠ "".
Proof. intros H ->. vm_compute in H. discriminate. Qed.

Lemma Index_catalog_key_truthy k e : Index.PROMPT_TEMPLATES !! k = Some e → k ≠ "".
Proof. intros H ->. vm_compute in H. discriminate. Qed.

(** The two catalogs hold the same prompts, formats and flags. *)
Lemma Index_catalog_agrees k :
  Index.of_entry <$> Index.PROMPT_TEMPLATES !! k = of_entry <$> PROMPT_TEMPLATES !! k.
Proof.
  unfold Index.PROMPT_TEMPLATES, PROMPT_TEMPLATES.
  rewrite !lookup_insert, !lookup_empty.
  repeat case_decide; reflexivity.
Qed.

Lemma template_named a k e :
  custom_template a = None → prompt_template a = Some k →
  PROMPT_TEMPLATES !! k = Some e → template a = Some (of_entry e).
Proof.
  intros Hc Hk He. unfold template, PROMPT_TEMPLATES_get. rewrite Hc, Hk, He.
  by rewrite bool_decide_eq_false_2 by eauto using catalog_key_truthy.
Qed.

Lemma template_custom a c : custom_template a = Some c → template a = Some (of_custom c).
Proof. intros Hc. unfold template. by rewrite Hc. Qed.

Lemma template_absent a :
  custom_template a = None → prompt_template a = None → template a = None.
Proof. intros Hc Hk. unfold template. by rewrite Hc, Hk. Qed.

(** ** Resolution *)

(** C7. For every key of the named-template catalog, resolving with that
    key, no custom template and no [format] or [include_sources] override
    gives exactly the entry's system prompt, format and source flag. This
    holds for the catalog of [prompt-templates.ts] and for the one inlined in
    [index.ts]. *)
Theorem named_template_resolves_to_its_entry :
  (∀ k e m mo t mt,
     PROMPT_TEMPLATES !! k = Some e →
     resolved {| messages := m; prompt_template := Some k; custom_template := None;
                 model := mo; temperature := t; max_tokens := mt;
                 user_format := None; user_include_sources := None |}
     = (Some (Entry.system e), Entry.format e, Entry.include_sources e))
  ∧ (∀ k e,
       Index.PROMPT_TEMPLATES !! k = Some e →
       resolved_index (Some k) None None
       = (Some (Index.system e), Index.format e, Index.include_sources e)).
Proof.
  split.
  - intros k e m mo t mt He. unfold resolved, format, include_sources.
    rewrite (template_named _ k e) by done. reflexivity.
  - intros k e He.
    unfold resolved_index, Index.format_of, Index.include_sources_of,
      Index.template, Index.PROMPT_TEMPLATES_get.
    rewrite bool_decide_eq_false_2 by eauto using Index_catalog_key_truthy.
    rewrite He. reflexivity.
Qed.

Lemma named_template_resolves_to_its_entry_witness :
  PROMPT_TEMPLATES !! "api_docs" = Some api_docs
  ∧ resolved {| messages := []; prompt_template := Some "api_docs";
                custom_template := None; model := None; temperature := None;
                max_tokens := None; user_format := None;
                user_include_sources := None |}
    = (Some (Entry.system api_docs), Format.json, true).
Proof.
  split; [reflexivity|].
  apply (proj1 named_template_resolves_to_its_entry "api_docs" api_docs).
  reflexivity.
Defined.

(** C2. When [custom_template] is present the resolved system prompt, format
    and source flag are the same for every [prompt_template], a valid key
    included, and they are those of the custom template and the per-call
    overrides alone: nothing of a named template is merged in. *)
Theorem custom_template_supersedes m k c mo t mt f s :
  resolved {| messages := m; prompt_template := k; custom_template := Some c;
              model := mo; temperature := t; max_tokens := mt;
              user_format := f; user_include_sources := s |}
  = resolved {| messages := m; prompt_template := None; custom_template := Some c;
                model := mo; temperature := t; max_tokens := mt;
                user_format := f; user_include_sources := s |}
  ∧ resolved {| messages := m; prompt_template := k; custom_template := Some c;
                model := mo; temperature := t; max_tokens := mt;
                user_format := f; user_include_sources := s |}
    = (Some (custom_system c),
       default (default Format.text (custom_format c)) f,
       default (default false (custom_include_sources c)) s).
Proof.
  split; [reflexivity|].
  unfold resolved, format, include_sources, template; simpl.
  by destruct f, s.
Qed.

(** C3. The format is the per-call format when there is one, else the
    selected template's format, else ['text']; the source flag is the
    per-call flag when there is one (an explicit [false] wins over a
    template's [true]), else the selected template's, else [false]; a field
    the selected template does not define falls through to the default. With
    no template and no override the result is no system prompt, ['text'] and
    [false]. *)
Theorem override_chain a :
  (∀ f, user_format a = Some f → format a = f)
  ∧ (∀ t, user_format a = None → template a = Some t →
       format a = default Format.text (template_format t))
  ∧ (user_format a = None → template a = None → format a = Format.text)
  ∧ (∀ b, user_include_sources a = Some b → include_sources a = b)
  ∧ (∀ t, user_include_sources a = None → template a = Some t →
       include_sources a = default false (template_include_sources t))
  ∧ (user_include_sources a = None → template a = None → include_sources a = false)
  ∧ (custom_template a = None → prompt_template a = None →
     user_format a = None → user_include_sources a = None →
     resolved a = (None, Format.text, false)).
Proof.
  unfold resolved, format, include_sources.
  repeat split.
  - by intros f ->.
  - by intros t -> ->.
  - by intros -> ->.
  - by intros b ->.
  - by intros t -> ->.
  - by intros -> ->.
  - intros Hc Hk -> ->. by rewrite (template_absent a Hc Hk).
Qed.

Lemma override_chain_witness :
  format {| messages := []; prompt_template := Some "technical_docs";
            custom_template := None; model := None; temperature := None;
            max_tokens := None; user_format := Some Format.json;
            user_include_sources := Some false |} = Format.json
  ∧ include_sources {| messages := []; prompt_template := Some "technical_docs";
                       custom_template := None; model := None; temperature := None;
                       max_tokens := None; user_format := Some Format.json;
                       user_include_sources := Some false |} = false
  ∧ format {| messages := []; prompt_template := Some "technical_docs";
              custom_template := None; model := None; temperature := None;
              max_tokens := None; user_format := None;
              user_include_sources := None |} = Format.markdown
  ∧ include_sources {| messages := []; prompt_template := Some "technical_docs";
                       custom_template := None; model := None; temperature := None;
                       max_tokens := None; user_format := None;
                       user_include_sources := None |} = true
  ∧ resolved {| messages := []; prompt_template := None;
                custom_template := None; model := None; temperature := None;
                max_tokens := None; user_format := None;
                user_include_sources := None |} = (None, Format.text, false).
Proof.
  split; [|split; [|split; [|split]]].
  - apply (proj1 (override_chain _)). reflexivity.
  - apply (proj1 (proj2 (proj2 (proj2 (override_chain _))))). reflexivity.
  - apply (proj1 (proj2 (override_chain _)) (of_entry technical_docs)); reflexivity.
  - apply (proj1 (proj2 (proj2 (proj2 (proj2 (override_chain _)))))
             (of_entry technical_docs)); reflexivity.
  - apply (proj2 (proj2 (proj2 (proj2 (proj2 (proj2 (override_chain _))))))); reflexivity.
Defined.

(** ** Reading the response body *)

(** On a body other than [null] the optional chain of the check is the path
    [choices[0].message]. *)
Lemma optional_chain data :
  data ≠ JNull →
  member (Some data) "choices" = inr (read data "choices")
  ∧ optional_member (optional_member0 (read data "choices")) "message" = message_of data.
Proof.
  intros Hnull. split; [by destruct data|].
  unfold message_of. destruct (read data "choices") as [choices|]; [|reflexivity].
  simpl. destruct choices; try reflexivity; simpl.
  - by destruct s as [|ch s].
  - by destruct (head elements) as [[]|].
  - by destruct (lookup_member "0" members) as [[]|].
Qed.

Lemma null_or_not (data : JSON) : {data = JNull} + {data ≠ JNull}.
Proof. destruct data; (by left) || (by right). Qed.

(** [null] has no shape. *)
Lemma well_shaped_not_null data : well_shaped data = true → data ≠ JNull.
Proof. by intros H ->. Qed.

(** Once the check has passed, the unguarded path of the [return] reads
    without throwing, and reads [choices[0].message.content]. *)
Lemma strict_path data :
  well_shaped data = true →
  ∃ choices first message,
    member (Some data) "choices" = inr (Some choices)
    ∧ member0 (Some choices) = inr (Some first)
    ∧ member (Some first) "message" = inr (Some message)
    ∧ member (Some message) "content" = inr (content_of data).
Proof.
  unfold well_shaped, content_of, message_of. intros H.
  destruct (read data "choices") as [choices|] eqn:Hc; [|discriminate].
  simpl in H |- *.
  destruct (read0 choices) as [first|] eqn:Hf; [|discriminate].
  simpl in H |- *.
  destruct (read first "message") as [message|] eqn:Hm; [|discriminate].
  simpl in H |- *.
  exists choices, first, message. repeat split.
  - destruct data; try discriminate; simpl in *; congruence.
  - destruct choices; try discriminate; simpl in *; congruence.
  - destruct first; try discriminate; simpl in *; congruence.
  - by destruct message.
Qed.

(** ** Running the handler *)

Ltac run :=
  unfold mbind, M_bind, mret, M_ret, throw, lift, try_catch, try_finally; simpl.

(** The outer [try] sets the timer up, runs the inner one, and clears the
    timer whatever the inner one did. *)
Lemma bounded_run a w :
  bounded a w =
  ((attempt a (controllers w) (armed w)).1,
   disarmed (fresh (dom (timers w))) (attempt a (controllers w) (armed w)).2).
Proof.
  unfold bounded, new_AbortController, setTimeout, clearTimeout. run.
  fold (armed w). by destruct (attempt a (controllers w) (armed w)).
Qed.

(** The [catch] turns every thrown value into an envelope. *)
Lemma chat_completion_run a w :
  chat_completion a w =
  (inr (match (bounded a w).1 with
        | inl error => error_result error
        | inr result => result
        end),
   (bounded a w).2).
Proof.
  unfold chat_completion. run. by destruct (bounded a w) as [[e|r] w'].
Qed.

Lemma handler_chat_completion request :
  name request = "chat_completion" →
  handler request = chat_completion (arguments request).
Proof.
  intros H. unfold handler. by rewrite bool_decide_eq_false_2 by (rewrite H; auto).
Qed.

(** *** The inner [try], outcome by outcome *)

#[local] Arguments member : simpl never.
#[local] Arguments member0 : simpl never.
#[local] Arguments optional_member : simpl never.
#[local] Arguments optional_member0 : simpl never.
#[local] Arguments truthy : simpl never.

Abbreviation fetched a c w := (record (Fetched url (request_init a c)) w).

Lemma attempt_rejects a c w reason :
  remote url (request_init a c) = Rejects reason →
  attempt a c w = (inl reason, fetched a c w).
Proof. intros H. unfold attempt, fetch. run. fold url. by rewrite H. Qed.

Lemma attempt_times_out a c w :
  remote url (request_init a c) = TimesOut →
  attempt a c w = (inl AbortError, expire c (fetched a c w)).
Proof. intros H. unfold attempt, fetch. run. fold url. by rewrite H. Qed.

Lemma attempt_unreadable a c w response reason :
  remote url (request_init a c) = Responds response →
  ok response = true → received response = BodyRejects reason →
  attempt a c w = (inl reason, fetched a c w).
Proof.
  intros H Hok Hb. unfold attempt, fetch, response_json. run.
  fold url. rewrite H. simpl. by rewrite Hok, Hb.
Qed.

Lemma attempt_body_times_out a c w response :
  remote url (request_init a c) = Responds response →
  ok response = true → received response = BodyTimesOut →
  attempt a c w = (inl AbortError, expire c (fetched a c w)).
Proof.
  intros H Hok Hb. unfold attempt, fetch, response_json. run.
  fold url. rewrite H. simpl. by rewrite Hok, Hb.
Qed.

Lemma attempt_null a c w response :
  remote url (request_init a c) = Responds response →
  ok response = true → received response = Parsed JNull →
  attempt a c w
  = (inl (TypeError "Cannot read properties of null (reading 'choices')"),
     fetched a c w).
Proof.
  intros H Hok Hb. unfold attempt, fetch, response_json. run.
  fold url. rewrite H. simpl. by rewrite Hok, Hb.
Qed.

Lemma attempt_misshaped a c w response data :
  remote url (request_init a c) = Responds response →
  ok response = true → received response = Parsed data →
  data ≠ JNull → well_shaped data = false →
  attempt a c w
  = (inl (McpError InternalError "Invalid response format from Perplexity API"),
     fetched a c w).
Proof.
  intros H Hok Hb Hnull Hshape.
  destruct (optional_chain data Hnull) as [Hc Hm].
  unfold attempt, fetch, response_json, choices_0_message. run.
  fold url. rewrite H. simpl. rewrite Hok, Hb. simpl. rewrite Hc, Hm.
  unfold well_shaped in Hshape. by rewrite Hshape.
Qed.

Lemma attempt_success a c w response data :
  remote url (request_init a c) = Responds response →
  ok response = true → received response = Parsed data →
  well_shaped data = true →
  attempt a c w = (inr (success_result (format a) (content_of data)), fetched a c w).
Proof.
  intros H Hok Hb Hshape.
  destruct (optional_chain data (well_shaped_not_null _ Hshape)) as [Hc Hm].
  destruct (strict_path data Hshape) as (choices & first & message & H1 & H2 & H3 & H4).
  unfold attempt, fetch, response_json, choices_0_message,
    choices_0_message_content. run.
  fold url. rewrite H. simpl. rewrite Hok, Hb. simpl. rewrite Hc, Hm.
  unfold well_shaped in Hshape. rewrite Hshape. simpl.
  rewrite Hc in H1. injection H1 as ->. by rewrite H2, H3, H4.
Qed.

(** A status that is not a success always ends in a thrown error, whatever
    the error body holds; at most the timer has fired meanwhile. *)
Lemma attempt_status a c w response :
  remote url (request_init a c) = Responds response →
  ok response = false →
  ∃ error, (attempt a c w).1 = inl error
    ∧ ((attempt a c w).2 = fetched a c w
       ∨ (attempt a c w).2 = expire c (fetched a c w)).
Proof.
  intros H Hok. unfold attempt, fetch, response_json, error_detail. run.
  fold url. rewrite H. simpl. rewrite Hok. simpl.
  destruct (received response) as [data| |]; simpl.
  - destruct (member (Some data) "error") as [e|error]; simpl; [eauto|].
    destruct (truthy error); simpl; [|eauto].
    destruct (option_bind _ _ ToString error); simpl; eauto.
  - eauto.
  - eauto.
Qed.

(** When the error body cannot be read, the message degrades to the status
    text alone. *)
Lemma attempt_status_unreadable a c w response reason :
  remote url (request_init a c) = Responds response →
  ok response = false → received response = BodyRejects reason →
  attempt a c w
  = (inl (McpError InternalError ("Perplexity API error: " ++ statusText response ++ "")),
     fetched a c w).
Proof.
  intros H Hok Hb. unfold attempt, fetch, response_json, error_detail. run.
  fold url. rewrite H. simpl. by rewrite Hok, Hb.
Qed.


(** Every outcome falls in one of two cases: a failure, and the inner [try]
    throws; or a success status with a body of the expected shape, and it
    returns the success envelope. *)
Lemma attempt_cases a c w :
  (failure (remote url (request_init a c)) = true
   ∧ ∃ error, (attempt a c w).1 = inl error)
  ∨ (∃ response data,
       remote url (request_init a c) = Responds response
       ∧ ok response = true ∧ received response = Parsed data
       ∧ well_shaped data = true
       ∧ (attempt a c w).1 = inr (success_result (format a) (content_of data))).
Proof.
  destruct (remote url (request_init a c)) as [reason| |response] eqn:H.
  - left. split; [reflexivity|]. rewrite (attempt_rejects _ _ _ _ H). eauto.
  - left. split; [reflexivity|]. rewrite (attempt_times_out _ _ _ H). eauto.
  - simpl. destruct (ok response) eqn:Hok.
    + destruct (received response) as [data|reason|] eqn:Hb.
      * destruct (well_shaped data) eqn:Hshape.
        -- right. exists response, data.
           rewrite (attempt_success _ _ _ _ _ H Hok Hb Hshape). auto.
        -- left. split; [reflexivity|].
           destruct (null_or_not data) as [->|Hnull].
           ++ rewrite (attempt_null _ _ _ _ H Hok Hb). eauto.
           ++ rewrite (attempt_misshaped _ _ _ _ _ H Hok Hb Hnull Hshape). eauto.
      * left. split; [reflexivity|]. rewrite (attempt_unreadable _ _ _ _ _ H Hok Hb). eauto.
      * left. split; [reflexivity|]. rewrite (attempt_body_times_out _ _ _ _ H Hok Hb). eauto.
    + left. split; [reflexivity|].
      destruct (attempt_status a c w response H Hok) as (error & He & _). eauto.
Qed.

(** The inner [try] touches the world in two ways only: the call is
    recorded, and the timer of this call may fire. *)
Lemma attempt_world a c w :
  (attempt a c w).2 = fetched a c w ∨ (attempt a c w).2 = expire c (fetched a c w).
Proof.
  destruct (remote url (request_init a c)) as [reason| |response] eqn:H.
  - rewrite (attempt_rejects _ _ _ _ H). auto.
  - rewrite (attempt_times_out _ _ _ H). auto.
  - destruct (ok response) eqn:Hok.
    + destruct (received response) as [data|reason|] eqn:Hb.
      * destruct (well_shaped data) eqn:Hshape.
        -- rewrite (attempt_success _ _ _ _ _ H Hok Hb Hshape). auto.
        -- destruct (null_or_not data) as [->|Hnull].
           ++ rewrite (attempt_null _ _ _ _ H Hok Hb). auto.
           ++ rewrite (attempt_misshaped _ _ _ _ _ H Hok Hb Hnull Hshape). auto.
      * rewrite (attempt_unreadable _ _ _ _ _ H Hok Hb). auto.
      * rewrite (attempt_body_times_out _ _ _ _ H Hok Hb). auto.
    + by destruct (attempt_status a c w response H Hok) as (error & _ & Hw).
Qed.

(** *** The whole call *)

(** The handler for this tool always returns an envelope. *)
Lemma chat_completion_returns a w :
  ∃ result, chat_completion a w = (inr result, (bounded a w).2).
Proof. rewrite chat_completion_run. eauto. Qed.

(** What a call adds to the history: the timer is set, the request is sent,
    the timer may fire, and the timer is cleared. *)
Lemma chat_completion_log a w :
  log (chat_completion a w).2
  = (log w ++ [ SetTimeout (fresh (dom (timers w))) (controllers w) 30000;
               Fetched url (request_init a (controllers w));
               ClearTimeout (fresh (dom (timers w))) ])%list
  ∨ log (chat_completion a w).2
    = (log w ++ [ SetTimeout (fresh (dom (timers w))) (controllers w) 30000;
                 Fetched url (request_init a (controllers w));
                 Aborted (controllers w);
                 ClearTimeout (fresh (dom (timers w))) ])%list.
Proof.
  rewrite chat_completion_run, bounded_run. simpl.
  destruct (attempt_world a (controllers w) (armed w)) as [-> | ->]; simpl;
    rewrite <- !app_assoc; simpl; auto.
Qed.

(** Two calls that send the same body behave alike. *)
Lemma chat_completion_ext a a' w :
  completion_request a = completion_request a' →
  chat_completion a w = chat_completion a' w.
Proof.
  intros H.
  assert (format a = format a') as Hf by apply (f_equal request_format H).
  unfold chat_completion, bounded, attempt,
    request_init.
  by rewrite H, Hf.
Qed.


(** C8. For a success status and a body of the expected shape, the envelope
    has exactly one content entry; its type is ['json'] when the format is
    ['json'] and ['text'] otherwise, ['markdown'] included; its text is the
    value at [choices[0].message.content], untouched; [isError] is not
    set. *)
Theorem success_envelope_is_verbatim request w response data :
  name request = "chat_completion" →
  remote url (request_init (arguments request) (controllers w)) = Responds response →
  ok response = true → received response = Parsed data → well_shaped data = true →
  ∃ w',
    handler request w
    = (inr {| content :=
                [ {| type := match format (arguments request) with
                             | Format.json => "json"
                             | Format.text | Format.markdown => "text"
                             end;
                     text := content_of data |} ];
              isError := None |},
       w').
Proof.
  intros Hname H Hok Hb Hshape. rewrite (handler_chat_completion _ Hname).
  rewrite chat_completion_run, bounded_run. simpl.
  rewrite (attempt_success _ _ _ _ _ H Hok Hb Hshape). simpl.
  eexists. unfold success_result. by destruct (format (arguments request)).
Qed.

(** C10. Whenever the envelope has [isError: true], its single content entry
    has type ['text'], whatever the format of the call, and its text is the
    fixed prefix followed by the text of the error thrown inside the outer
    [try], which is that error's message when it is an [Error]. *)
Theorem error_envelope_is_text request w result w' :
  name request = "chat_completion" →
  handler request w = (inr result, w') →
  isError result = Some true →
  ∃ error,
    (bounded (arguments request) w).1 = inl error
    ∧ content result
      = [ {| type := "text";
             text := Some (JString ("Error generating completion: " ++ error_text error)) |} ]
    ∧ (∀ m, Error_message error = Some m → error_text error = m).
Proof.
  intros Hname Hrun Herr. rewrite (handler_chat_completion _ Hname) in Hrun.
  rewrite chat_completion_run in Hrun. injection Hrun as <- _.
  rewrite bounded_run in *. simpl in *.
  destruct (attempt_cases (arguments request) (controllers w) (armed w))
    as [(_ & error & He) | (response & data & _ & _ & _ & _ & He)];
    rewrite He in *.
  - exists error. split; [reflexivity|]. split; [reflexivity|].
    intros m Hm. destruct error; simpl in *; congruence.
  - discriminate.
Qed.

(** C9. Whatever the remote call does, [clearTimeout] is the last thing the
    call does with the world: when the handler returns its timer is not
    pending, no timer is pending that was not pending before the call, and
    the history of the call ends with the clearing of the timer it began
    with. *)
Theorem timeout_timer_is_cleared a w :
  timers (handler (call a) w).2 !! fresh (dom (timers w)) = None
  ∧ timers (handler (call a) w).2 ⊆ timers w
  ∧ (log (handler (call a) w).2
     = (log w ++ [ SetTimeout (fresh (dom (timers w))) (controllers w) 30000;
                  Fetched url (request_init a (controllers w));
                  ClearTimeout (fresh (dom (timers w))) ])%list
     ∨ log (handler (call a) w).2
       = (log w ++ [ SetTimeout (fresh (dom (timers w))) (controllers w) 30000;
                    Fetched url (request_init a (controllers w));
                    Aborted (controllers w);
                    ClearTimeout (fresh (dom (timers w))) ])%list).
Proof.
  rewrite (handler_chat_completion (call a)) by reflexivity. simpl.
  split; [|split; [|apply chat_completion_log]].
  - rewrite chat_completion_run, bounded_run. simpl. apply lookup_delete_eq.
  - rewrite chat_completion_run, bounded_run. simpl.
    destruct (attempt_world a (controllers w) (armed w)) as [-> | ->]; simpl.
    + rewrite delete_insert_eq. apply delete_subseteq.
    + etrans; [apply delete_mono, map_filter_subseteq|].
      rewrite delete_insert_eq. apply delete_subseteq.
Qed.

(** A success status with a body other than [null] that has not the expected
    shape is reported as an invalid response format. *)
Lemma misshaped_body_is_reported request w response data :
  name request = "chat_completion" →
  remote url (request_init (arguments request) (controllers w)) = Responds response →
  ok response = true → received response = Parsed data →
  data ≠ JNull → well_shaped data = false →
  ∃ w',
    handler request w
    = (inr (error_result
              (McpError InternalError "Invalid response format from Perplexity API")),
       w').
Proof.
  intros Hname H Hok Hb Hnull Hshape. rewrite (handler_chat_completion _ Hname).
  rewrite chat_completion_run, bounded_run. simpl.
  rewrite (attempt_misshaped _ _ _ _ _ H Hok Hb Hnull Hshape). simpl. eauto.
Qed.

(** Where the resolved system prompt decides the messages: for every call
    whose [prompt_template] is not a name the catalog object inherits, the
    request carries [{role: system, content: P}] before the caller's
    messages when a system prompt [P] was resolved, and the caller's
    messages alone when none was. *)
Lemma prompt_decides_messages a w :
  (∀ k, custom_template a = None → prompt_template a = Some k →
        k ∉ Object_prototype) →
  request_messages (body (request_init a (controllers w)))
  = match template a ≫= template_system with
    | Some P => {| Message.role := "system"; Message.content := Some P |} :: messages a
    | None => messages a
    end.
Proof.
  intros Hproto. simpl. unfold final_messages, template, PROMPT_TEMPLATES_get.
  destruct (custom_template a) as [c|]; [reflexivity|].
  destruct (prompt_template a) as [k|]; [|reflexivity].
  case_bool_decide; [reflexivity|].
  destruct (PROMPT_TEMPLATES !! k); [reflexivity|].
  by rewrite (bool_decide_eq_false_2 _ (Hproto k eq_refl eq_refl)).
Qed.

(** The messages of the one request a call sends, as the code composes
    them: when a template was selected (the custom template, else the
    property of the catalog object that a non-empty [prompt_template] names),
    a system message holding that template's [system], followed by the
    caller's messages as they are; when no template was selected, the
    caller's messages as they are. For a custom template and for a catalog
    entry the system message holds their system prompt. *)
Theorem outbound_messages a w :
  (∃ rest,
     log (handler (call a) w).2
     = (log w ++ SetTimeout (fresh (dom (timers w))) (controllers w) 30000
               :: Fetched url (request_init a (controllers w)) :: rest)%list
     ∧ ∀ u init, Fetched u init ∉ rest)
  ∧ request_messages (body (request_init a (controllers w)))
    = match template a with
      | Some t => {| Message.role := "system"; Message.content := template_system t |}
                  :: messages a
      | None => messages a
      end
  ∧ (∀ c, custom_template a = Some c →
       request_messages (body (request_init a (controllers w)))
       = {| Message.role := "system"; Message.content := Some (custom_system c) |}
         :: messages a)
  ∧ (∀ k e, custom_template a = None → prompt_template a = Some k →
       PROMPT_TEMPLATES !! k = Some e →
       request_messages (body (request_init a (controllers w)))
       = {| Message.role := "system"; Message.content := Some (Entry.system e) |}
         :: messages a)
  ∧ (custom_template a = None → prompt_template a = None →
     request_messages (body (request_init a (controllers w))) = messages a).
Proof.
  split; [|split; [reflexivity|split; [|split]]]; simpl; unfold final_messages.
  - rewrite (handler_chat_completion (call a)) by reflexivity. simpl.
    destruct (chat_completion_log a w) as [-> | ->]; eexists; (split; [reflexivity|]);
      intros u init Hin; repeat (apply elem_of_cons in Hin as [Hin|Hin]; [discriminate|]);
      by apply elem_of_nil in Hin.
  - intros c Hc. by rewrite (template_custom a c Hc).
  - intros k e Hc Hk He. by rewrite (template_named a k e Hc Hk He).
  - intros Hc Hk. by rewrite (template_absent a Hc Hk).
Qed.

(** C1, as the code has it. A [prompt_template] that is neither a key of the
    catalog nor the name of a property the catalog object inherits (and no
    custom template) raises no error: no template is selected, and the
    handler does exactly what it does for the same call without
    [prompt_template], returning an envelope. The lookup of [index.ts] finds
    no template either. *)
Theorem unknown_key_is_resolved_as_no_template a k w :
  custom_template a = None → prompt_template a = Some k →
  PROMPT_TEMPLATES !! k = None → k ∉ Object_prototype →
  template a = None
  ∧ Index.template (Some k) = None
  ∧ handler {| name := "chat_completion"; arguments := a |} w
    = handler {| name := "chat_completion";
                 arguments := with_prompt_template None a |} w
  ∧ ∃ result w',
      handler {| name := "chat_completion"; arguments := a |} w = (inr result, w').
Proof.
  intros Hc Hk Hcat Hproto.
  assert (template a = None) as Ht.
  { unfold template, PROMPT_TEMPLATES_get. rewrite Hc, Hk, Hcat.
    rewrite (bool_decide_eq_false_2 _ Hproto). by case_bool_decide. }
  assert (template (with_prompt_template None a) = None) as Ht'.
  { unfold template. simpl. by rewrite Hc. }
  split; [done|]. split; [|split].
  - unfold Index.template, Index.PROMPT_TEMPLATES_get.
    pose proof (Index_catalog_agrees k) as Hagree. rewrite Hcat in Hagree.
    destruct (Index.PROMPT_TEMPLATES !! k); [discriminate|].
    rewrite (bool_decide_eq_false_2 _ Hproto). by case_bool_decide.
  - rewrite !handler_chat_completion by done. simpl.
    apply chat_completion_ext.
    unfold completion_request, final_messages, format, include_sources.
    by rewrite Ht, Ht'.
  - rewrite handler_chat_completion by done. simpl.
    destruct (chat_completion_returns a w) as [result ->]. eauto.
Qed.

(** ** Further properties of the handler *)

Lemma handler_unknown_tool request w :
  name request ≠ "chat_completion" →
  handler request w
  = (inl (McpError MethodNotFound ("Unknown tool: " ++ name request)), w).
Proof. intros H. unfold handler. by rewrite bool_decide_eq_true_2. Qed.


(** X2. The envelope of a call is flagged as an error exactly when the
    remote call failed, and carries no [isError] at all exactly when it
    succeeded. *)
Theorem error_flag_iff_remote_failure request w :
  name request = "chat_completion" →
  ∃ result w',
    handler request w = (inr result, w')
    ∧ (isError result = Some true
       ↔ failure (remote url (request_init (arguments request) (controllers w))) = true)
    ∧ (isError result = None
       ↔ failure (remote url (request_init (arguments request) (controllers w))) = false).
Proof.
  intros Hname. rewrite (handler_chat_completion _ Hname).
  rewrite chat_completion_run, bounded_run. simpl. do 2 eexists. split; [reflexivity|].
  destruct (attempt_cases (arguments request) (controllers w) (armed w))
    as [(Hf & error & ->) | (response & data & H & Hok & Hb & Hshape & ->)].
  - rewrite Hf. simpl. split; split; done.
  - rewrite H. simpl. rewrite Hok, Hb, Hshape. simpl. split; split; done.
Qed.

(** The world the inner [try] leaves: the timer of the call has fired
    exactly in the outcomes that time out. *)
Lemma attempt_world_exact a c w :
  (attempt a c w).2
  = if timed_out (remote url (request_init a c))
    then expire c (fetched a c w) else fetched a c w.
Proof.
  destruct (remote url (request_init a c)) as [reason| |response] eqn:H; simpl.
  - by rewrite (attempt_rejects _ _ _ _ H).
  - by rewrite (attempt_times_out _ _ _ H).
  - destruct (ok response) eqn:Hok.
    + destruct (received response) as [data|reason|] eqn:Hb.
      * destruct (well_shaped data) eqn:Hshape.
        -- by rewrite (attempt_success _ _ _ _ _ H Hok Hb Hshape).
        -- destruct (null_or_not data) as [->|Hnull].
           ++ by rewrite (attempt_null _ _ _ _ H Hok Hb).
           ++ by rewrite (attempt_misshaped _ _ _ _ _ H Hok Hb Hnull Hshape).
      * by rewrite (attempt_unreadable _ _ _ _ _ H Hok Hb).
      * by rewrite (attempt_body_times_out _ _ _ _ H Hok Hb).
    + unfold attempt, fetch, response_json, error_detail. run.
      fold url. rewrite H. simpl. rewrite Hok. simpl.
      destruct (received response) as [data| |]; simpl; [|done..].
      destruct (member (Some data) "error") as [e|error]; simpl; [done|].
      destruct (truthy error); simpl; [|done].
      by destruct (option_bind _ _ ToString error).
Qed.

(** X3. The request is aborted only when the timer fires: the call records
    the abort of its controller exactly in the outcomes that time out, and
    never aborts any other controller. *)
Theorem aborted_iff_timed_out a w c :
  Aborted c ∈ log (handler (call a) w).2
  ↔ Aborted c ∈ log w
    ∨ (c = controllers w
       ∧ timed_out (remote url (request_init a (controllers w))) = true).
Proof.
  rewrite (handler_chat_completion (call a)) by reflexivity. simpl.
  rewrite chat_completion_run, bounded_run. simpl.
  rewrite attempt_world_exact.
  destruct (timed_out (remote url (request_init a (controllers w)))); simpl;
    unfold armed; simpl;
    rewrite !elem_of_app, !list_elem_of_singleton;
    intuition (try discriminate; try congruence).
Qed.

(** The frame of a call: the timers, the controllers, the invariant. *)
Lemma chat_completion_frame a w :
  timers_known w →
  timers (chat_completion a w).2 = timers w
  ∧ controllers (chat_completion a w).2 = S (controllers w)
  ∧ timers_known (chat_completion a w).2.
Proof.
  intros Hknown.
  rewrite chat_completion_run, bounded_run. simpl.
  assert (timers w !! fresh (dom (timers w)) = None) as Hfresh
    by apply not_elem_of_dom, is_fresh.
  assert (timers (disarmed (fresh (dom (timers w)))
            (attempt a (controllers w) (armed w)).2) = timers w
          ∧ controllers (disarmed (fresh (dom (timers w)))
              (attempt a (controllers w) (armed w)).2) = S (controllers w))
    as [Ht Hc].
  { rewrite attempt_world_exact.
    destruct (timed_out (remote url (request_init a (controllers w)))); simpl.
    - split; [|reflexivity].
      rewrite map_filter_insert_False by (simpl; auto).
      rewrite <- map_filter_delete, !(delete_id (timers w)) by done.
      apply map_filter_id. intros j c Hj. simpl.
      specialize (Hknown j c Hj). simpl in Hknown. lia.
    - split; [|reflexivity]. rewrite delete_insert_eq. by apply delete_id. }
  split; [done|]. split; [done|].
  unfold timers_known. rewrite Ht, Hc.
  eapply map_Forall_impl; [exact Hknown|]. simpl. intros; lia.
Qed.

(** X4. A call leaves the pending timers exactly as it found them, creates
    one controller, and keeps every pending timer pointing at a controller
    that exists. *)
Theorem call_restores_timers a w :
  timers_known w →
  timers (handler (call a) w).2 = timers w
  ∧ controllers (handler (call a) w).2 = S (controllers w)
  ∧ timers_known (handler (call a) w).2.
Proof.
  rewrite (handler_chat_completion (call a)) by reflexivity.
  apply chat_completion_frame.
Qed.

(** X5. After any sequence of requests handled one after the other, the
    pending timers are those of the beginning and one controller was
    created per call of the tool. *)
Theorem requests_leave_no_timer requests w :
  timers_known w →
  timers (after handler requests w) = timers w
  ∧ controllers (after handler requests w) = controllers w + tool_calls requests
  ∧ timers_known (after handler requests w).
Proof.
  revert w. induction requests as [|request requests IH]; intros w Hknown.
  - unfold after, tool_calls. simpl. split; [done|]. split; [lia|done].
  - unfold after in *. simpl.
    destruct (decide (name request = "chat_completion")) as [Hname|Hname].
    + rewrite (handler_chat_completion _ Hname).
      destruct (chat_completion_frame (arguments request) w Hknown) as (Ht & Hc & Hk).
      destruct (IH _ Hk) as (IHt & IHc & IHk).
      rewrite IHt, IHc, Ht, Hc. split; [done|]. split; [|done].
      unfold tool_calls. rewrite filter_cons_True by done. simpl. lia.
    + rewrite (handler_unknown_tool request w Hname). simpl.
      destruct (IH _ Hknown) as (IHt & IHc & IHk).
      split; [done|]. split; [|done].
      rewrite IHc. unfold tool_calls. by rewrite filter_cons_False by done.
Qed.

Lemma append_empty_r (s : string) : s ++ "" = s.
Proof.
  induction s as [|ch s IH]; [reflexivity|].
  change (String ch (s ++ "") = String ch s). by rewrite IH.
Qed.

(** *** A status that is not a success *)

Lemma attempt_status_plain a c w response :
  remote url (request_init a c) = Responds response →
  ok response = false →
  (∃ reason, received response = BodyRejects reason)
  ∨ received response = BodyTimesOut
  ∨ (∃ data, received response = Parsed data ∧ data ≠ JNull
             ∧ truthy (read data "error") = false) →
  (attempt a c w).1
  = inl (McpError InternalError ("Perplexity API error: " ++ statusText response)).
Proof.
  intros H Hok Hb. unfold attempt, fetch, response_json, error_detail. run.
  fold url. rewrite H. simpl. rewrite Hok. simpl.
  destruct Hb as [[reason ->] | [-> | (data & -> & Hnull & Herr)]]; simpl;
    rewrite ?append_empty_r; try reflexivity.
  destruct (optional_chain data Hnull) as [_ _].
  assert (member (Some data) "error" = inr (read data "error")) as -> by by destruct data.
  simpl. rewrite Herr. simpl. by rewrite append_empty_r.
Qed.

Lemma attempt_status_detail a c w response data v printed :
  remote url (request_init a c) = Responds response →
  ok response = false → received response = Parsed data →
  read data "error" = Some v → truthy (Some v) = true → ToString v = Some printed →
  (attempt a c w).1
  = inl (McpError InternalError
           ("Perplexity API error: " ++ statusText response ++ " - " ++ printed)).
Proof.
  intros H Hok Hb Hv Ht Hs. unfold attempt, fetch, response_json, error_detail. run.
  fold url. rewrite H. simpl. rewrite Hok, Hb. simpl.
  assert (member (Some data) "error" = inr (Some v)) as ->.
  { destruct data; try discriminate. unfold member. by rewrite Hv. }
  simpl. rewrite Ht. simpl. by rewrite Hs.
Qed.

Lemma handler_of_attempt request w error :
  name request = "chat_completion" →
  (attempt (arguments request) (controllers w) (armed w)).1 = inl error →
  ∃ w', handler request w = (inr (error_result error), w').
Proof.
  intros Hname He. rewrite (handler_chat_completion _ Hname).
  rewrite chat_completion_run, bounded_run. simpl. rewrite He. eauto.
Qed.

(** X6. Under a status that is not a success, when the error body cannot be
    read (it is not JSON, or the timer fires while it is read) or holds no
    truthy [error] member, the diagnostic is the status text alone; the
    failure to read the error body is swallowed. *)
Theorem status_text_alone request w response :
  name request = "chat_completion" →
  remote url (request_init (arguments request) (controllers w)) = Responds response →
  ok response = false →
  (∃ reason, received response = BodyRejects reason)
  ∨ received response = BodyTimesOut
  ∨ (∃ data, received response = Parsed data ∧ data ≠ JNull
             ∧ truthy (read data "error") = false) →
  ∃ w',
    handler request w
    = (inr {| content :=
                [ {| type := "text";
                     text := Some (JString
                       ("Error generating completion: MCP error -32603: Perplexity API error: "
                        ++ statusText response)) |} ];
              isError := Some true |},
       w').
Proof.
  intros Hname H Hok Hb.
  destruct (handler_of_attempt request w _ Hname
              (attempt_status_plain _ _ _ _ H Hok Hb)) as [w' ->].
  exists w'. reflexivity.
Qed.

(** X7. Under a status that is not a success, a truthy [error] member of
    the error body is appended to the status text after [" - "], printed as
    a template literal prints it; a string is appended as it is. *)
Theorem status_with_detail request w response data v printed :
  name request = "chat_completion" →
  remote url (request_init (arguments request) (controllers w)) = Responds response →
  ok response = false → received response = Parsed data →
  read data "error" = Some v → truthy (Some v) = true → ToString v = Some printed →
  ∃ w',
    handler request w
    = (inr {| content :=
                [ {| type := "text";
                     text := Some (JString
                       ("Error generating completion: MCP error -32603: Perplexity API error: "
                        ++ statusText response ++ " - " ++ printed)) |} ];
              isError := Some true |},
       w').
Proof.
  intros Hname H Hok Hb Hv Ht Hs.
  destruct (handler_of_attempt request w _ Hname
              (attempt_status_detail _ _ _ _ data v printed H Hok Hb Hv Ht Hs))
    as [w' ->].
  exists w'. reflexivity.
Qed.

(** X8. Under a status that is not a success, when the [error] member of
    the error body is an object, as in [{"error": {"message": ..., "type": ...}}],
    its contents are never reported: the diagnostic ends in
    [" - [object Object]"]; or, when the object has a member named
    [toString], the conversion throws and the diagnostic is that
    [TypeError]'s message, the status text being lost as well. *)
Theorem structured_error_is_flattened request w response data members :
  name request = "chat_completion" →
  remote url (request_init (arguments request) (controllers w)) = Responds response →
  ok response = false → received response = Parsed data →
  read data "error" = Some (JObject members) →
  ∃ w',
    handler request w
    = (inr {| content :=
                [ {| type := "text";
                     text := Some (JString
                       match lookup_member "toString" members with
                       | None =>
                           "Error generating completion: MCP error -32603: Perplexity API error: "
                           ++ statusText response ++ " - [object Object]"
                       | Some _ =>
                           "Error generating completion: Cannot convert object to primitive value"
                       end) |} ];
              isError := Some true |},
       w').
Proof.
  intros Hname H Hok Hb Hv.
  destruct (lookup_member "toString" members) as [v|] eqn:Hts.
  - assert ((attempt (arguments request) (controllers w) (armed w)).1
            = inl (TypeError "Cannot convert object to primitive value")) as He.
    { unfold attempt, fetch, response_json, error_detail. run.
      fold url. rewrite H. simpl. rewrite Hok, Hb. simpl.
      assert (member (Some data) "error" = inr (Some (JObject members))) as ->.
      { destruct data; try discriminate. unfold member. by rewrite Hv. }
      simpl. unfold truthy. simpl. by rewrite Hts. }
    destruct (handler_of_attempt request w _ Hname He) as [w' ->].
    exists w'. reflexivity.
  - assert (ToString (JObject members) = Some "[object Object]") as Hs
      by (simpl; by rewrite Hts).
    destruct (handler_of_attempt request w _ Hname
                (attempt_status_detail _ _ _ _ data (JObject members) _
                   H Hok Hb Hv eq_refl Hs)) as [w' ->].
    exists w'. reflexivity.
Qed.

(** X9. Under a status that is not a success, the error body [null] makes
    the read of [errorData.error] throw: the diagnostic is the message of
    that [TypeError], and the status text is lost. *)
Theorem null_error_body_hides_status request w response :
  name request = "chat_completion" →
  remote url (request_init (arguments request) (controllers w)) = Responds response →
  ok response = false → received response = Parsed JNull →
  ∃ w',
    handler request w
    = (inr {| content :=
                [ {| type := "text";
                     text := Some (JString
                       "Error generating completion: Cannot read properties of null (reading 'error')") |} ];
              isError := Some true |},
       w').
Proof.
  intros Hname H Hok Hb.
  assert ((attempt (arguments request) (controllers w) (armed w)).1
          = inl (TypeError "Cannot read properties of null (reading 'error')")) as He.
  { unfold attempt, fetch, response_json, error_detail. run.
    fold url. rewrite H. simpl. by rewrite Hok, Hb. }
  destruct (handler_of_attempt request w _ Hname He) as [w' ->].
  exists w'. reflexivity.
Qed.

(** *** Templates and defaults *)

Lemma catalog_entries k e :
  PROMPT_TEMPLATES !! k = Some e →
  e = technical_docs ∨ e = security_practices ∨ e = code_review ∨ e = api_docs.
Proof.
  unfold PROMPT_TEMPLATES. rewrite !lookup_insert, lookup_empty.
  repeat case_decide; intros; simplify_eq; auto.
Qed.

(** X10. The defaults the schema declares for [model], [temperature] and
    [max_tokens] are the handler's: a client that fills them in sends the
    same model, temperature, token limit and messages. The declared defaults
    for [format] and [include_sources] are not: filled in, they are explicit
    overrides, so for every named template the request asks for ['text']
    instead of the template's format, and for no sources whatever the
    template says. *)
Theorem declared_defaults (a : Arguments) :
  request_model (completion_request (with_declared_defaults a))
  = request_model (completion_request a)
  ∧ request_temperature (completion_request (with_declared_defaults a))
    = request_temperature (completion_request a)
  ∧ request_max_tokens (completion_request (with_declared_defaults a))
    = request_max_tokens (completion_request a)
  ∧ request_messages (completion_request (with_declared_defaults a))
    = request_messages (completion_request a)
  ∧ request_format (completion_request (with_declared_defaults a))
    = default Format.text (user_format a)
  ∧ request_include_sources (completion_request (with_declared_defaults a))
    = default false (user_include_sources a)
  ∧ (∀ k e, custom_template a = None → prompt_template a = Some k →
       PROMPT_TEMPLATES !! k = Some e → user_format a = None →
       request_format (completion_request a) = Entry.format e
       ∧ request_format (completion_request (with_declared_defaults a))
         ≠ request_format (completion_request a)).
Proof.
  repeat (split; [by destruct a as [? ? ? [] [] [] [] []]|]).
  intros k e Hc Hk He Hf. simpl.
  assert (format (with_declared_defaults a) = Format.text) as ->
    by (unfold format; simpl; by rewrite Hf).
  assert (format a = Entry.format e) as ->
    by (unfold format; by rewrite Hf, (template_named a k e Hc Hk He)).
  split; [done|].
  destruct (catalog_entries k e He) as [-> | [-> | [-> | ->]]]; intros ?; discriminate.
Qed.

(** X11. A custom template that spells out a catalog entry is the same call
    as naming the entry: same request, same envelope, same effects. *)
Theorem spelled_out_entry m k e mo t mt f s w :
  PROMPT_TEMPLATES !! k = Some e →
  handler (call {| messages := m; prompt_template := None;
                   custom_template := Some (as_custom e);
                   model := mo; temperature := t; max_tokens := mt;
                   user_format := f; user_include_sources := s |}) w
  = handler (call {| messages := m; prompt_template := Some k;
                     custom_template := None;
                     model := mo; temperature := t; max_tokens := mt;
                     user_format := f; user_include_sources := s |}) w.
Proof.
  intros He. rewrite !handler_chat_completion by reflexivity. simpl.
  apply chat_completion_ext.
  unfold completion_request, final_messages, format, include_sources, template.
  simpl. unfold PROMPT_TEMPLATES_get. rewrite He.
  by rewrite bool_decide_eq_false_2 by eauto using catalog_key_truthy.
Qed.

(** X12. A [prompt_template] that names a property the catalog object
    inherits ([constructor], [toString], ...) selects an object with no
    [system], [format] or [include_sources]: the request starts with a
    system message without content, and the format and the source flag are
    the per-call values or the defaults. *)
Theorem inherited_name_selects_empty_template m k mo t mt f s :
  k ∈ Object_prototype →
  completion_request {| messages := m; prompt_template := Some k;
                        custom_template := None;
                        model := mo; temperature := t; max_tokens := mt;
                        user_format := f; user_include_sources := s |}
  = {| request_model := default "sonar" mo;
       request_messages :=
         {| Message.role := "system"; Message.content := None |} :: m;
       request_temperature := default "0.7" t;
       request_max_tokens := default "1024" mt;
       request_format := default Format.text f;
       request_include_sources := default false s |}.
Proof.
  intros Hin. unfold Object_prototype in Hin.
  repeat (apply elem_of_cons in Hin as [->|Hin]; [by destruct f, s|]).
  by apply elem_of_nil in Hin.
Qed.

(** *** The tool list and the earlier server *)

Lemma PROMPT_TEMPLATES_of_entries :
  list_to_map PROMPT_TEMPLATES_entries = PROMPT_TEMPLATES.
Proof. reflexivity. Qed.

Lemma enum_is_catalog k :
  k ∈ prompt_template_enum ↔ is_Some (PROMPT_TEMPLATES !! k).
Proof using Type.
  split.
  - unfold prompt_template_enum, PROMPT_TEMPLATES_entries. simpl. intros Hin.
    repeat (apply elem_of_cons in Hin as [->|Hin]; [by eexists|]).
    by apply elem_of_nil in Hin.
  - intros [e He]. unfold PROMPT_TEMPLATES in He.
    rewrite !lookup_insert, lookup_empty in He.
    repeat case_decide; simplify_eq; apply (bool_decide_unpack _); reflexivity.
Qed.

(** X13. The keys the tool list advertises for [prompt_template] are
    exactly the keys of the catalog, and a call that takes its key from them
    (with no custom template) always gets the catalog entry: a system
    message with the entry's prompt, never an inherited property and never
    a fall-through to no template. *)
Theorem advertised_keys_select_entries a k :
  (k ∈ prompt_template_enum ↔ is_Some (PROMPT_TEMPLATES !! k))
  ∧ (k ∈ prompt_template_enum → custom_template a = None →
     prompt_template a = Some k →
     ∃ e, PROMPT_TEMPLATES !! k = Some e
          ∧ template a = Some (of_entry e)
          ∧ request_messages (completion_request a)
            = {| Message.role := "system"; Message.content := Some (Entry.system e) |}
              :: messages a).
Proof using Type.
  split; [apply enum_is_catalog|].
  intros Hin Hc Hk. apply enum_is_catalog in Hin as [e He]. exists e.
  split; [done|]. simpl. unfold final_messages.
  by rewrite (template_named a k e Hc Hk He).
Qed.

Lemma append_assoc (s1 s2 s3 : string) : (s1 ++ s2) ++ s3 = s1 ++ (s2 ++ s3).
Proof.
  induction s1 as [|ch s1 IH]; [reflexivity|].
  change (String ch ((s1 ++ s2) ++ s3) = String ch (s1 ++ (s2 ++ s3))). by rewrite IH.
Qed.

Lemma join_occurs sep (strings : list string) x :
  x ∈ strings → ∃ before after, join sep strings = before ++ x ++ after.
Proof.
  induction strings as [|y rest IH]; intros Hin; [by apply elem_of_nil in Hin|].
  apply elem_of_cons in Hin as [->|Hin].
  - destruct rest as [|z rest].
    + exists "", "". simpl. by rewrite append_empty_r.
    + by exists "", (sep ++ join sep (z :: rest)).
  - destruct (IH Hin) as (before & after & Hjoin).
    destruct rest as [|z rest]; [by apply elem_of_nil in Hin|].
    exists (y ++ sep ++ before), after.
    change (join sep (y :: z :: rest)) with (y ++ sep ++ join sep (z :: rest)).
    by rewrite Hjoin, !append_assoc.
Qed.

(** X14. The description the tool list gives for [prompt_template] has a
    line [- key: description] for every template of the catalog. *)
Theorem description_documents_every_template k e :
  PROMPT_TEMPLATES !! k = Some e →
  ∃ before after,
    prompt_template_description
    = before ++ ("- " ++ k ++ ": " ++ Entry.description e) ++ after.
Proof.
  intros He.
  assert ((k, e) ∈ PROMPT_TEMPLATES_entries) as Hin.
  { rewrite <- PROMPT_TEMPLATES_of_entries in He.
    by apply elem_of_list_to_map_2 in He. }
  destruct (join_occurs newline (map template_line PROMPT_TEMPLATES_entries)
              (template_line (k, e))) as (before & after & Hjoin).
  { apply list_elem_of_fmap. by exists (k, e). }
  unfold prompt_template_description. rewrite Hjoin.
  exists (("Predefined prompt template to use for common use cases. Available templates:"
           ++ newline) ++ before), after.
  symmetry. apply (append_assoc _ before (template_line (k, e) ++ after)).
Qed.

Lemma Index_template_current a :
  Index.template (IndexCall.prompt_template a) = template (current a).
Proof.
  unfold Index.template, template, Index.PROMPT_TEMPLATES_get, PROMPT_TEMPLATES_get. simpl.
  destruct (IndexCall.prompt_template a) as [k|]; [|reflexivity].
  case_bool_decide; [reflexivity|].
  pose proof (Index_catalog_agrees k) as Hagree.
  destruct (Index.PROMPT_TEMPLATES !! k), (PROMPT_TEMPLATES !! k);
    simpl in Hagree; try discriminate; [exact Hagree|reflexivity].
Qed.

Lemma index_completion_request_current a :
  index_completion_request a = completion_request (current a).
Proof.
  unfold index_completion_request, completion_request, Index.final_messages,
    final_messages, Index.format_of, format, Index.include_sources_of, include_sources.
  by rewrite Index_template_current.
Qed.

(** X15. The handler of [index.ts] does, for every request and every
    behaviour of the remote service, exactly what the current handler does
    for the same request without [custom_template]: same request sent, same
    envelope or thrown error, same effects. *)
Theorem index_handler_is_current_handler request w :
  index_handler request w = handler (current_request request) w.
Proof.
  unfold index_handler, handler, chat_completion, index_bounded, bounded,
    index_attempt, attempt, index_request_init, request_init. simpl.
  rewrite index_completion_request_current.
  assert (Index.format_of (IndexCall.prompt_template (IndexCall.arguments request))
            (IndexCall.user_format (IndexCall.arguments request))
          = format (current (IndexCall.arguments request))) as ->
    by apply (f_equal request_format
                (index_completion_request_current (IndexCall.arguments request))).
  reflexivity.
Qed.

End Server.

(** ** The credential *)

#[local] Arguments member : simpl never.
#[local] Arguments truthy : simpl never.

(** The outcome of the inner [try] depends on the credential and on the
    world only through what the remote service answers. *)
Lemma attempt_result_blind key1 key2 remote a c w1 w2 :
  remote url (request_init key1 a c) = remote url (request_init key2 a c) →
  (attempt key1 remote a c w1).1 = (attempt key2 remote a c w2).1.
Proof.
  intros Hsame.
  destruct (remote url (request_init key2 a c)) as [reason| |response] eqn:H2.
  - by rewrite (attempt_rejects _ _ _ _ _ _ Hsame), (attempt_rejects _ _ _ _ _ _ H2).
  - by rewrite (attempt_times_out _ _ _ _ _ Hsame), (attempt_times_out _ _ _ _ _ H2).
  - destruct (ok response) eqn:Hok.
    + destruct (received response) as [data|reason|] eqn:Hb.
      * destruct (well_shaped data) eqn:Hshape.
        -- by rewrite (attempt_success _ _ _ _ _ _ _ Hsame Hok Hb Hshape),
             (attempt_success _ _ _ _ _ _ _ H2 Hok Hb Hshape).
        -- destruct (null_or_not data) as [->|Hnull].
           ++ by rewrite (attempt_null _ _ _ _ _ _ Hsame Hok Hb),
                (attempt_null _ _ _ _ _ _ H2 Hok Hb).
           ++ by rewrite (attempt_misshaped _ _ _ _ _ _ _ Hsame Hok Hb Hnull Hshape),
                (attempt_misshaped _ _ _ _ _ _ _ H2 Hok Hb Hnull Hshape).
      * by rewrite (attempt_unreadable _ _ _ _ _ _ _ Hsame Hok Hb),
          (attempt_unreadable _ _ _ _ _ _ _ H2 Hok Hb).
      * by rewrite (attempt_body_times_out _ _ _ _ _ _ Hsame Hok Hb),
          (attempt_body_times_out _ _ _ _ _ _ H2 Hok Hb).
    + unfold attempt, fetch, response_json, error_detail,
        mbind, M_bind, mret, M_ret, throw, lift, try_catch.
      fold url. rewrite Hsame, H2. simpl. rewrite Hok. simpl.
      destruct (received response) as [data| |]; simpl; [|done..].
      destruct (member (Some data) "error") as [e|error]; simpl; [done|].
      destruct (truthy error); simpl; [|done].
      by destruct (option_bind _ _ ToString error).
Qed.

(** X16. The credential reaches the remote service in the [Authorization]
    header and nowhere else: if the service's answer does not depend on the
    headers, the handler returns the same envelope (or throws the same
    error) and leaves the same timers whatever the credential is. *)
Theorem credential_stays_out_of_the_envelope key1 key2 remote request w :
  (∀ u init1 init2,
     method init1 = method init2 → body init1 = body init2 →
     signal init1 = signal init2 → remote u init1 = remote u init2) →
  (handler key1 remote request w).1 = (handler key2 remote request w).1
  ∧ timers (handler key1 remote request w).2 = timers (handler key2 remote request w).2.
Proof.
  intros Hblind.
  destruct (decide (name request = "chat_completion")) as [Hname|Hname].
  - rewrite !(handler_chat_completion _ _ _ Hname).
    rewrite !chat_completion_run, !bounded_run. simpl.
    assert (remote url (request_init key1 (arguments request) (controllers w))
            = remote url (request_init key2 (arguments request) (controllers w)))
      as Hsame by by apply Hblind.
    rewrite !attempt_world_exact, Hsame.
    split; [|by destruct (timed_out _)].
    by rewrite (attempt_result_blind key1 key2 remote _ _ (armed w) (armed w) Hsame).
  - by rewrite !(handler_unknown_tool _ _ _ _ Hname).
Qed.

(** ** The first server *)

#[local] Arguments member0 : simpl never.

Lemma truthy_readable data : well_shaped data = true → readable data = true.
Proof.
  unfold well_shaped, readable. by destruct (message_of data) as [[]|].
Qed.

(** A message that is there, not [null] and falsy is [false], [0] or [""]:
    it has no [content]. *)
Lemma falsy_message_has_no_content data :
  readable data = true → well_shaped data = false → content_of data = None.
Proof.
  unfold well_shaped, readable, content_of.
  destruct (message_of data) as [[]|]; simpl; try done.
Qed.

Lemma basic_path data :
  readable data = true →
  Basic.choices_0_message_content data = inr (content_of data).
Proof.
  unfold readable, content_of, message_of, Basic.choices_0_message_content.
  intros H.
  destruct (read data "choices") as [choices|] eqn:Hc; [|discriminate].
  simpl in H |- *.
  destruct (read0 choices) as [first|] eqn:Hf; [|discriminate].
  simpl in H |- *.
  destruct (read first "message") as [message|] eqn:Hm; [|discriminate].
  simpl in H |- *.
  assert (member (Some data) "choices" = inr (Some choices)) as ->
    by (destruct data; try discriminate; unfold member; congruence).
  simpl.
  assert (member0 (Some choices) = inr (Some first)) as ->
    by (destruct choices; try discriminate; unfold member0; congruence).
  simpl.
  assert (member (Some first) "message" = inr (Some message)) as ->
    by (destruct first; try discriminate; unfold member; congruence).
  simpl. destruct message; try discriminate; reflexivity.
Qed.

Lemma basic_path_fails data :
  readable data = false →
  ∃ m, Basic.choices_0_message_content data = inl (TypeError m).
Proof.
  unfold readable, message_of, Basic.choices_0_message_content. intros H.
  destruct (member (Some data) "choices") as [e|choices] eqn:Hc.
  { destruct data; unfold member in Hc; simplify_eq; simpl; eauto. }
  assert (read data "choices" = choices) as Hr
    by (destruct data; unfold member in Hc; by simplify_eq).
  rewrite Hr in H. simpl.
  destruct (member0 choices) as [e|first] eqn:Hf.
  { destruct choices as [[]|]; unfold member0 in Hf; simplify_eq; simpl; eauto. }
  assert (∃ c, choices = Some c ∧ read0 c = first) as (c & -> & Hr0)
    by (destruct choices as [[]|]; unfold member0 in Hf; simplify_eq; eauto).
  simpl in H. rewrite Hr0 in H. simpl.
  destruct (member first "message") as [e|message] eqn:Hm.
  { destruct first as [[]|]; unfold member in Hm; simplify_eq; simpl; eauto. }
  assert (∃ f, first = Some f ∧ read f "message" = message) as (f & -> & Hrm)
    by (destruct first as [[]|]; unfold member in Hm; simplify_eq; eauto).
  simpl in H. rewrite Hrm in H. simpl.
  destruct message as [[]|]; try discriminate; unfold member; simpl; eauto.
Qed.

Section FirstServer.

Variable PERPLEXITY_API_KEY : string.
Variable remote : string → Basic.RequestInit → Basic.FetchResult.

Abbreviation basic_handler := (Basic.handler PERPLEXITY_API_KEY remote).
Abbreviation basic_request_init := (Basic.request_init PERPLEXITY_API_KEY).

Lemma basic_success a response data :
  remote url (basic_request_init a) = Basic.Responds response →
  Basic.ok response = true → Basic.received response = Basic.Parsed data →
  readable data = true →
  Basic.attempt PERPLEXITY_API_KEY remote a
  = inr {| content := [ {| type := "text"; text := content_of data |} ];
           isError := None |}.
Proof.
  intros H Hok Hb Hr. unfold Basic.attempt, Basic.fetch, Basic.response_json.
  fold url. rewrite H. simpl. rewrite Hok, Hb. simpl.
  by rewrite (basic_path data Hr).
Qed.

Lemma basic_unreadable a response data :
  remote url (basic_request_init a) = Basic.Responds response →
  Basic.ok response = true → Basic.received response = Basic.Parsed data →
  readable data = false →
  ∃ m, Basic.attempt PERPLEXITY_API_KEY remote a = inl (TypeError m).
Proof.
  intros H Hok Hb Hr. unfold Basic.attempt, Basic.fetch, Basic.response_json.
  fold url. rewrite H. simpl. rewrite Hok, Hb. simpl.
  destruct (basic_path_fails data Hr) as [m ->]. simpl. eauto.
Qed.

(** X17. For a request that carries its arguments, the envelope the first
    server returns is flagged as an error exactly when [fetch] rejects, the
    status is not a success, the body cannot be parsed, or the path
    [choices[0].message] is missing or [null] (the read of the content then
    throws); it carries no [isError] exactly in the other cases. *)
Theorem first_server_error_flag request result :
  Basic.name request = "chat_completion" →
  basic_handler request = inr result →
  (isError result = Some true
   ↔ basic_failure (remote url (basic_request_init (Basic.arguments request))) = true)
  ∧ (isError result = None
     ↔ basic_failure (remote url (basic_request_init (Basic.arguments request))) = false).
Proof.
  intros Hname. unfold Basic.handler.
  rewrite bool_decide_eq_false_2 by (rewrite Hname; auto).
  intros [= <-]. unfold Basic.chat_completion.
  destruct (remote url (basic_request_init (Basic.arguments request)))
    as [reason|response] eqn:H; simpl.
  - unfold Basic.attempt, Basic.fetch. fold url. rewrite H. simpl. split; split; done.
  - destruct (Basic.ok response) eqn:Hok.
    + destruct (Basic.received response) as [data|reason] eqn:Hb.
      * destruct (readable data) eqn:Hr; simpl.
        -- rewrite (basic_success _ _ _ H Hok Hb Hr). simpl. split; split; done.
        -- destruct (basic_unreadable _ _ _ H Hok Hb Hr) as [m ->]. simpl.
           split; split; done.
      * unfold Basic.attempt, Basic.fetch, Basic.response_json. fold url.
        rewrite H. simpl. rewrite Hok, Hb. simpl. split; split; done.
    + unfold Basic.attempt, Basic.fetch. fold url. rewrite H. simpl. rewrite Hok. simpl.
      split; split; done.
Qed.

(** X18. What the shape check of the current server changed for a body the
    first server received under a success status: where the check passes,
    the first server returned the same text; where it fails, the first
    server either threw a [TypeError] on the missing path (an error
    envelope) or, for a message that is [false], [0] or [""], returned a
    success whose text is [undefined]. *)
Theorem first_server_without_shape_check a response data :
  remote url (basic_request_init a) = Basic.Responds response →
  Basic.ok response = true → Basic.received response = Basic.Parsed data →
  (well_shaped data = true →
   basic_handler {| Basic.name := "chat_completion"; Basic.arguments := a |}
   = inr {| content := [ {| type := "text"; text := content_of data |} ];
            isError := None |})
  ∧ (well_shaped data = false → readable data = true →
     basic_handler {| Basic.name := "chat_completion"; Basic.arguments := a |}
     = inr {| content := [ {| type := "text"; text := None |} ];
              isError := None |})
  ∧ (readable data = false →
     ∃ m,
       basic_handler {| Basic.name := "chat_completion"; Basic.arguments := a |}
       = inr {| content :=
                  [ {| type := "text";
                       text := Some (JString ("Error generating completion: " ++ m)) |} ];
                isError := Some true |}).
Proof.
  intros H Hok Hb. unfold Basic.handler, Basic.chat_completion. simpl.
  split; [|split].
  - intros Hs. by rewrite (basic_success _ _ _ H Hok Hb (truthy_readable _ Hs)).
  - intros Hs Hr. rewrite (basic_success _ _ _ H Hok Hb Hr).
    by rewrite (falsy_message_has_no_content _ Hr Hs).
  - intros Hr. destruct (basic_unreadable _ _ _ H Hok Hb Hr) as [m ->]. eauto.
Qed.

End FirstServer.


(** ** Concrete calls, checked *)

(** C1, the claim as stated fails: with the unknown key ["nonexistent"] the
    handler throws nothing; it returns the envelope, and leaves the world,
    that the same call without [prompt_template] gives. *)
Lemma unknown_key_is_not_rejected :
  PROMPT_TEMPLATES !! "nonexistent" = None
  ∧ handler "k" (always (answers greeting))
      (call (with_prompt_template (Some "nonexistent") plain)) idle
    = handler "k" (always (answers greeting)) (call plain) idle
  ∧ (handler "k" (always (answers greeting))
       (call (with_prompt_template (Some "nonexistent") plain)) idle).1
    = inr {| content := [ {| type := "text"; text := Some (JString "yo") |} ];
             isError := None |}.
Proof. split; [|split]; vm_compute; reflexivity. Qed.

Lemma unknown_key_is_resolved_as_no_template_witness :
  template (with_prompt_template (Some "nonexistent") plain) = None
  ∧ Index.template (Some "nonexistent") = None
  ∧ handler "k" (always (answers greeting))
      (call (with_prompt_template (Some "nonexistent") plain)) idle
    = handler "k" (always (answers greeting))
        (call (with_prompt_template None
                 (with_prompt_template (Some "nonexistent") plain))) idle
  ∧ ∃ result w',
      handler "k" (always (answers greeting))
        (call (with_prompt_template (Some "nonexistent") plain)) idle
      = (inr result, w').
Proof.
  apply (unknown_key_is_resolved_as_no_template "k" (always (answers greeting))
           (with_prompt_template (Some "nonexistent") plain) "nonexistent" idle).
  - reflexivity.
  - reflexivity.
  - reflexivity.
  - apply (bool_decide_eq_false_1 _). reflexivity.
Defined.

(** C4, at the failing input: ["constructor"] names a property the
    catalog object inherits, so a template is selected that has no
    [system]; no system prompt is resolved, yet the request carries a system
    message, without content, before the caller's message. *)
Lemma contentless_system_message :
  (resolved (with_prompt_template (Some "constructor") plain)).1.1 = None
  ∧ log (handler "k" (always (answers greeting))
           (call (with_prompt_template (Some "constructor") plain)) idle).2
    = [ SetTimeout 0 0 30000;
        Fetched "https://api.perplexity.ai/chat/completions"
          {| method := "POST";
             headers := [ ("Content-Type", "application/json");
                          ("Authorization", "Bearer k") ];
             body := {| request_model := "sonar";
                        request_messages :=
                          [ {| Message.role := "system"; Message.content := None |}; hi ];
                        request_temperature := "0.7";
                        request_max_tokens := "1024";
                        request_format := Format.text;
                        request_include_sources := false |};
             signal := 0 |};
        ClearTimeout 0 ]
  ∧ request_messages
      (completion_request (with_prompt_template (Some "constructor") plain))
    ≠ messages (with_prompt_template (Some "constructor") plain).
Proof. split; [|split]; [vm_compute; reflexivity..|discriminate]. Qed.

Lemma outbound_messages_witness :
  request_messages (body (request_init "k" with_P 0))
  = [ {| Message.role := "system"; Message.content := Some "P" |}; hi ]
  ∧ request_messages
      (body (request_init "k" (with_prompt_template (Some "code_review") plain) 0))
    = [ {| Message.role := "system";
           Message.content := Some (Entry.system code_review) |}; hi ]
  ∧ request_messages (body (request_init "k" plain 0)) = [hi].
Proof.
  split; [|split].
  - apply (proj1 (proj2 (proj2
             (outbound_messages "k" (always TimesOut) with_P idle))) P_template).
    reflexivity.
  - apply (proj1 (proj2 (proj2 (proj2
             (outbound_messages "k" (always TimesOut)
                (with_prompt_template (Some "code_review") plain) idle))))
             "code_review" code_review); reflexivity.
  - apply (proj2 (proj2 (proj2 (proj2
             (outbound_messages "k" (always TimesOut) plain idle))))); reflexivity.
Defined.


Lemma success_envelope_is_verbatim_witness :
  ∃ w',
    handler "k" (always (answers greeting))
      (call (with_prompt_template (Some "technical_docs") plain)) idle
    = (inr {| content := [ {| type := "text"; text := Some (JString "yo") |} ];
              isError := None |},
       w').
Proof.
  apply (success_envelope_is_verbatim "k" (always (answers greeting))
           (call (with_prompt_template (Some "technical_docs") plain)) idle
           {| ok := true; statusText := "OK"; received := Parsed greeting |} greeting);
    reflexivity.
Defined.

Lemma error_envelope_is_text_witness :
  format as_json = Format.json
  ∧ ∃ error,
      (bounded "k" (always TimesOut) as_json idle).1 = inl error
      ∧ content (error_result AbortError)
        = [ {| type := "text";
               text := Some (JString ("Error generating completion: " ++ error_text error)) |} ]
      ∧ (∀ m, Error_message error = Some m → error_text error = m).
Proof.
  split; [reflexivity|].
  apply (error_envelope_is_text "k" (always TimesOut) (call as_json) idle
           (error_result AbortError)
           (handler "k" (always TimesOut) (call as_json) idle).2).
  - reflexivity.
  - vm_compute. reflexivity.
  - reflexivity.
Defined.

(** A message that is there but holds no [content] passes the check: the
    envelope is a success whose text is [undefined]. *)
Lemma message_without_content :
  (handler "k"
     (always (answers (JObject [ ("choices", JArray [ JObject [ ("message", JObject []) ] ]) ])))
     (call plain) idle).1
  = inr {| content := [ {| type := "text"; text := None |} ]; isError := None |}.
Proof. vm_compute. reflexivity. Qed.

(** C6, at the body [null] under a success status: the read of
    [data.choices] throws, and the envelope carries the message of that
    [TypeError], not the diagnostic of an invalid response format. *)
Lemma null_body_is_reported_as_type_error :
  (handler "k" (always (answers JNull)) (call plain) idle).1
  = inr {| content :=
             [ {| type := "text";
                  text := Some (JString "Error generating completion: Cannot read properties of null (reading 'choices')") |} ];
           isError := Some true |}
  ∧ (handler "k" (always (answers (JObject []))) (call plain) idle).1
    = inr {| content :=
               [ {| type := "text";
                    text := Some (JString "Error generating completion: MCP error -32603: Invalid response format from Perplexity API") |} ];
             isError := Some true |}.
Proof. split; vm_compute; reflexivity. Qed.

(** ** Further concrete calls, checked *)


Lemma error_flag_iff_remote_failure_witness :
  ∃ result w',
    handler "k" (always TimesOut) (call plain) idle = (inr result, w')
    ∧ (isError result = Some true
       ↔ failure (always TimesOut url (request_init "k" plain (controllers idle))) = true)
    ∧ (isError result = None
       ↔ failure (always TimesOut url (request_init "k" plain (controllers idle))) = false).
Proof.
  apply (error_flag_iff_remote_failure "k" (always TimesOut) (call plain) idle).
  reflexivity.
Defined.

Lemma idle_timers_known : timers_known idle.
Proof. apply map_Forall_empty. Qed.

Lemma call_restores_timers_witness :
  timers (handler "k" (always TimesOut) (call plain) idle).2 = timers idle
  ∧ controllers (handler "k" (always TimesOut) (call plain) idle).2 = 1
  ∧ timers_known (handler "k" (always TimesOut) (call plain) idle).2.
Proof.
  apply (call_restores_timers "k" (always TimesOut) plain idle idle_timers_known).
Defined.

Lemma requests_leave_no_timer_witness :
  timers (after (handler "k" (always TimesOut)) [call plain; other_tool; call as_json] idle)
  = timers idle
  ∧ controllers
      (after (handler "k" (always TimesOut)) [call plain; other_tool; call as_json] idle)
    = controllers idle + tool_calls [call plain; other_tool; call as_json]
  ∧ timers_known
      (after (handler "k" (always TimesOut)) [call plain; other_tool; call as_json] idle).
Proof.
  apply (requests_leave_no_timer "k" (always TimesOut)
           [call plain; other_tool; call as_json] idle idle_timers_known).
Defined.

Lemma status_text_alone_witness :
  ∃ w',
    handler "k"
      (always (refuses "Unauthorized" (BodyRejects (Error "SyntaxError" "Unexpected token <"))))
      (call plain) idle
    = (inr {| content :=
                [ {| type := "text";
                     text := Some (JString
                       ("Error generating completion: MCP error -32603: Perplexity API error: "
                        ++ "Unauthorized")) |} ];
              isError := Some true |},
       w').
Proof.
  apply (status_text_alone "k"
           (always (refuses "Unauthorized"
                      (BodyRejects (Error "SyntaxError" "Unexpected token <"))))
           (call plain) idle
           {| ok := false; statusText := "Unauthorized";
              received := BodyRejects (Error "SyntaxError" "Unexpected token <") |}).
  - reflexivity.
  - reflexivity.
  - reflexivity.
  - left. eexists. reflexivity.
Defined.

Lemma status_with_detail_witness :
  ∃ w',
    handler "k" (always (refuses "Bad Request" (Parsed error_string))) (call plain) idle
    = (inr {| content :=
                [ {| type := "text";
                     text := Some (JString
                       ("Error generating completion: MCP error -32603: Perplexity API error: "
                        ++ "Bad Request" ++ " - " ++ "Invalid model")) |} ];
              isError := Some true |},
       w').
Proof.
  apply (status_with_detail "k" (always (refuses "Bad Request" (Parsed error_string)))
           (call plain) idle
           {| ok := false; statusText := "Bad Request"; received := Parsed error_string |}
           error_string (JString "Invalid model") "Invalid model"); reflexivity.
Defined.

Lemma structured_error_is_flattened_witness :
  (∃ w',
     handler "k" (always (refuses "Bad Request" (Parsed error_object))) (call plain) idle
     = (inr {| content :=
                 [ {| type := "text";
                      text := Some (JString
                        ("Error generating completion: MCP error -32603: Perplexity API error: "
                         ++ "Bad Request" ++ " - [object Object]")) |} ];
               isError := Some true |},
        w'))
  ∧ (∃ w',
       handler "k" (always (refuses "Bad Request" (Parsed error_with_toString)))
         (call plain) idle
       = (inr {| content :=
                   [ {| type := "text";
                        text := Some (JString
                          "Error generating completion: Cannot convert object to primitive value") |} ];
                 isError := Some true |},
          w')).
Proof.
  split.
  - apply (structured_error_is_flattened "k"
             (always (refuses "Bad Request" (Parsed error_object))) (call plain) idle
             {| ok := false; statusText := "Bad Request"; received := Parsed error_object |}
             error_object [ ("message", JString "Invalid model") ]); reflexivity.
  - apply (structured_error_is_flattened "k"
             (always (refuses "Bad Request" (Parsed error_with_toString))) (call plain) idle
             {| ok := false; statusText := "Bad Request";
                received := Parsed error_with_toString |}
             error_with_toString [ ("toString", JNumber "1") ]); reflexivity.
Defined.

Lemma null_error_body_hides_status_witness :
  ∃ w',
    handler "k" (always (refuses "Bad Gateway" (Parsed JNull))) (call plain) idle
    = (inr {| content :=
                [ {| type := "text";
                     text := Some (JString
                       "Error generating completion: Cannot read properties of null (reading 'error')") |} ];
              isError := Some true |},
       w').
Proof.
  apply (null_error_body_hides_status "k"
           (always (refuses "Bad Gateway" (Parsed JNull))) (call plain) idle
           {| ok := false; statusText := "Bad Gateway"; received := Parsed JNull |});
    reflexivity.
Defined.

Lemma declared_defaults_witness :
  request_format (completion_request (with_prompt_template (Some "api_docs") plain))
  = Format.json
  ∧ request_format
      (completion_request
         (with_declared_defaults (with_prompt_template (Some "api_docs") plain)))
    ≠ request_format (completion_request (with_prompt_template (Some "api_docs") plain)).
Proof.
  apply (proj2 (proj2 (proj2 (proj2 (proj2 (proj2
           (declared_defaults (with_prompt_template (Some "api_docs") plain)))))))
           "api_docs" api_docs); reflexivity.
Defined.

Lemma spelled_out_entry_witness :
  handler "k" (always (answers greeting))
    (call {| messages := [hi]; prompt_template := None;
             custom_template := Some (as_custom code_review);
             model := None; temperature := None; max_tokens := None;
             user_format := None; user_include_sources := None |}) idle
  = handler "k" (always (answers greeting))
      (call {| messages := [hi]; prompt_template := Some "code_review";
               custom_template := None;
               model := None; temperature := None; max_tokens := None;
               user_format := None; user_include_sources := None |}) idle.
Proof.
  apply (spelled_out_entry "k" (always (answers greeting)) [hi] "code_review" code_review).
  reflexivity.
Defined.

Lemma inherited_name_selects_empty_template_witness :
  completion_request {| messages := [hi]; prompt_template := Some "toString";
                        custom_template := None;
                        model := None; temperature := None; max_tokens := None;
                        user_format := None; user_include_sources := None |}
  = {| request_model := "sonar";
       request_messages := [ {| Message.role := "system"; Message.content := None |}; hi ];
       request_temperature := "0.7";
       request_max_tokens := "1024";
       request_format := Format.text;
       request_include_sources := false |}.
Proof.
  apply (inherited_name_selects_empty_template [hi] "toString" None None None None None).
  apply (bool_decide_unpack _). reflexivity.
Defined.

Lemma advertised_keys_select_entries_witness :
  ∃ e, PROMPT_TEMPLATES !! "security_practices" = Some e
       ∧ template (with_prompt_template (Some "security_practices") plain)
         = Some (of_entry e)
       ∧ request_messages
           (completion_request (with_prompt_template (Some "security_practices") plain))
         = {| Message.role := "system"; Message.content := Some (Entry.system e) |}
           :: messages (with_prompt_template (Some "security_practices") plain).
Proof.
  apply (proj2 (advertised_keys_select_entries
                  (with_prompt_template (Some "security_practices") plain)
                  "security_practices")).
  - apply (bool_decide_unpack _). reflexivity.
  - reflexivity.
  - reflexivity.
Defined.

Lemma description_documents_every_template_witness :
  ∃ before after,
    prompt_template_description
    = before ++ ("- " ++ "api_docs" ++ ": " ++ Entry.description api_docs) ++ after.
Proof.
  apply (description_documents_every_template "api_docs" api_docs). reflexivity.
Defined.

Lemma credential_stays_out_of_the_envelope_witness :
  (handler "first" (always (answers greeting)) (call plain) idle).1
  = (handler "second" (always (answers greeting)) (call plain) idle).1
  ∧ timers (handler "first" (always (answers greeting)) (call plain) idle).2
    = timers (handler "second" (always (answers greeting)) (call plain) idle).2.
Proof.
  apply (credential_stays_out_of_the_envelope "first" "second"
           (always (answers greeting)) (call plain) idle).
  reflexivity.
Defined.

Lemma first_server_error_flag_witness :
  (isError {| content := [ {| type := "text"; text := Some (JString "yo") |} ];
              isError := None |} = Some true
   ↔ basic_failure (basic_answers greeting url (Basic.request_init "k" basic_plain))
     = true)
  ∧ (isError {| content := [ {| type := "text"; text := Some (JString "yo") |} ];
                isError := None |} = None
     ↔ basic_failure (basic_answers greeting url (Basic.request_init "k" basic_plain))
       = false).
Proof.
  apply (first_server_error_flag "k" (basic_answers greeting) (basic_call basic_plain)).
  - reflexivity.
  - reflexivity.
Defined.

Lemma first_server_without_shape_check_witness :
  Basic.handler "k" (basic_answers greeting) (basic_call basic_plain)
  = inr {| content := [ {| type := "text"; text := Some (JString "yo") |} ];
           isError := None |}
  ∧ Basic.handler "k" (basic_answers empty_message) (basic_call basic_plain)
    = inr {| content := [ {| type := "text"; text := None |} ]; isError := None |}
  ∧ ∃ m,
      Basic.handler "k" (basic_answers (JObject [])) (basic_call basic_plain)
      = inr {| content :=
                 [ {| type := "text";
                      text := Some (JString ("Error generating completion: " ++ m)) |} ];
               isError := Some true |}.
Proof.
  split; [|split].
  - apply (proj1 (first_server_without_shape_check "k" (basic_answers greeting)
                    basic_plain _ greeting eq_refl eq_refl eq_refl)). reflexivity.
  - apply (proj1 (proj2 (first_server_without_shape_check "k"
                    (basic_answers empty_message)
                    basic_plain _ empty_message eq_refl eq_refl eq_refl))); reflexivity.
  - apply (proj2 (proj2 (first_server_without_shape_check "k"
                    (basic_answers (JObject []))
                    basic_plain _ (JObject []) eq_refl eq_refl eq_refl))). reflexivity.
Defined.

